(** * wenchang-data: the data-trust verification pipeline

    A shallow embedding of [src/standards/cross_validator.py] and
    [src/standards/verification_middleware.py], and the properties of the
    credibility classifier, the independence checker, the cross validator
    and the verification middleware.

    Python values are embedded as follows.
    - [str] is a sequence of Unicode code points ([pystr]); the literals of
      the source are written as they are and decoded from UTF-8.
    - A record ([dict] with string keys) is an association list in insertion
      order, which is the order [json.dumps] prints.
    - A raised exception is the [Raise] outcome of [result]. *)

From Stdlib Require Import List NArith ZArith Bool String Ascii Lia.
From Stdlib Require Decimal.
From stdpp Require Import base decidable countable gmap.
Import ListNotations.

Local Open Scope list_scope.

(** ** Strings *)

Abbreviation codepoint := N (only parsing).
Abbreviation pystr := (list N) (only parsing).

Local Open Scope N_scope.

Fixpoint bytes_of (s : string) : list N :=
  match s with
  | EmptyString => []
  | String a s' => N_of_ascii a :: bytes_of s'
  end.

(** Decoder for the UTF-8 text of the literals. *)
Fixpoint utf8_decode (bs : pystr) : pystr :=
  match bs with
  | [] => []
  | b0 :: r0 =>
    if b0 <? 128 then b0 :: utf8_decode r0
    else
      match r0 with
      | [] => []
      | b1 :: r1 =>
        if b0 <? 224 then ((b0 - 192) * 64 + (b1 - 128)) :: utf8_decode r1
        else
          match r1 with
          | [] => []
          | b2 :: r2 =>
            if b0 <? 240
            then ((b0 - 224) * 4096 + (b1 - 128) * 64 + (b2 - 128))
                   :: utf8_decode r2
            else
              match r2 with
              | [] => []
              | b3 :: r3 =>
                ((b0 - 240) * 262144 + (b1 - 128) * 4096
                 + (b2 - 128) * 64 + (b3 - 128)) :: utf8_decode r3
              end
          end
      end
  end.

(** [py "..."] is the Python literal ['...']. *)
Definition py (s : string) : pystr := utf8_decode (bytes_of s).

Definition str_eqb (a b : pystr) : bool :=
  if decide (a = b) then true else false.

(** [s.startswith(p)] *)
Fixpoint startswith (p s : pystr) : bool :=
  match p, s with
  | [], _ => true
  | _ :: _, [] => false
  | a :: p', b :: s' => (a =? b) && startswith p' s'
  end.

(** [p in s] for two strings: substring containment. *)
Fixpoint contains (p s : pystr) : bool :=
  startswith p s ||
  match s with
  | [] => false
  | _ :: s' => contains p s'
  end.

(** [sep.join(parts)] *)
Fixpoint join (sep : pystr) (parts : list pystr) : pystr :=
  match parts with
  | [] => []
  | [x] => x
  | x :: rest => x ++ sep ++ join sep rest
  end.

(** The case mapping on the ASCII range.  [str.lower] itself is the
    runtime's Unicode case mapping; the validator is stated over an arbitrary
    mapping [lower], and [ascii_lower] instantiates it in the examples, all
    of which are ASCII. *)
Definition ascii_lower_cp (c : codepoint) : codepoint :=
  if (65 <=? c) && (c <=? 90) then c + 32 else c.

Definition ascii_lower (s : pystr) : pystr := map ascii_lower_cp s.

Local Close Scope N_scope.

(** ** Outcomes: a value, or a raised exception *)

Inductive pyexn :=
| TypeError
| AttributeError
| KeyError
| ValueError (msg : pystr).

Inductive result (A : Type) :=
| Ok (a : A)
| Raise (e : pyexn).

Arguments Ok {A} a.
Arguments Raise {A} e.

Definition bind {A B} (m : result A) (k : A -> result B) : result B :=
  match m with
  | Ok a => k a
  | Raise e => Raise e
  end.

Notation "x <- m ;; k" := (bind m (fun x => k))
  (at level 100, m at next level, right associativity).

(** A [for] loop that appends one computed item per element and stops at
    the first exception. *)
Fixpoint mapM {A B} (f : A -> result B) (l : list A) : result (list B) :=
  match l with
  | [] => Ok []
  | x :: rest => y <- f x ;; ys <- mapM f rest ;; Ok (y :: ys)
  end.

(** ** Values *)

#[warnings="-register-all"]
Inductive pyval :=
| VNone
| VBool (b : bool)
| VInt (z : Z)
| VStr (s : pystr)
| VList (l : list pyval)
| VDict (d : list (pystr * pyval)).

Abbreviation pydict := (list (pystr * pyval)) (only parsing).

(** [d.get(k)]: [None] of the option stands for an absent key. *)
Fixpoint lookup_key (k : pystr) (d : pydict) : option pyval :=
  match d with
  | [] => None
  | (k', v) :: rest => if str_eqb k k' then Some v else lookup_key k rest
  end.

(** [k in d] *)
Definition has_key (k : pystr) (d : pydict) : bool :=
  match lookup_key k d with Some _ => true | None => false end.

(** [d.get(k, dflt)] *)
Definition get (k : pystr) (dflt : pyval) (d : pydict) : pyval :=
  match lookup_key k d with Some v => v | None => dflt end.

(** [d.get(k)], with Python's [None] for an absent key. *)
Definition get_none (k : pystr) (d : pydict) : pyval := get k VNone d.

(** [d[k] = v]: an existing key keeps its position, a new key goes last. *)
Fixpoint set_item (k : pystr) (v : pyval) (d : pydict) : pydict :=
  match d with
  | [] => [(k, v)]
  | (k', v') :: rest =>
    if str_eqb k k' then (k', v) :: rest else (k', v') :: set_item k v rest
  end.

(** [bool(v)] *)
Definition truthy (v : pyval) : bool :=
  match v with
  | VNone => false
  | VBool b => b
  | VInt z => negb (z =? 0)%Z
  | VStr s => match s with [] => false | _ => true end
  | VList l => match l with [] => false | _ => true end
  | VDict d => match d with [] => false | _ => true end
  end.

(** [p in v] for a string [p]: substring of a string, element of a list,
    key of a dict; any other operand is not iterable. *)
Definition py_in (p : pystr) (v : pyval) : result bool :=
  match v with
  | VStr s => Ok (contains p s)
  | VList l =>
    Ok (existsb
          (fun x => match x with VStr s => str_eqb p s | _ => false end) l)
  | VDict d => Ok (has_key p d)
  | _ => Raise TypeError
  end.

(** [v[:n]]: strings and lists are sliced; a dict has no slice among its
    keys ([KeyError]; [TypeError] before Python 3.12, where a slice could not
    be hashed), and the other values cannot be subscripted. *)
Definition slice_to (n : nat) (v : pyval) : result pyval :=
  match v with
  | VStr s => Ok (VStr (firstn n s))
  | VList l => Ok (VList (firstn n l))
  | VDict _ => Raise KeyError
  | _ => Raise TypeError
  end.

(** ** The runtime library the validator calls

    [str.lower] and [urllib.parse.urlparse(url).netloc] belong to the Python
    runtime, not to the repository.  The validator is stated over any
    runtime with the two facts below; [urlparse] may raise [ValueError]. *)

Class Runtime := {
  lower : pystr -> pystr;
  urlparse_netloc : pystr -> result pystr;
  lower_nil : lower [] = [];
  netloc_nil : urlparse_netloc [] = Ok []
}.

(** *** Reference runtime: [urlsplit] of CPython 3.12, up to the netloc

    The steps of [urllib.parse.urlsplit] that produce [netloc]: strip leading
    C0 controls and spaces, drop tab, CR and LF, cut a leading scheme, take
    the authority after ["//"] up to the first of [/ ? #], and raise
    [ValueError("Invalid IPv6 URL")] when only one of the two brackets
    occurs in it.  The later checks of [urlsplit] (the syntax of a bracketed
    host, NFKC normalisation of a non-ASCII netloc) can only raise on more
    inputs; the examples below do not reach them. *)

Local Open Scope N_scope.

Fixpoint lstrip_c0 (s : pystr) : pystr :=
  match s with
  | [] => []
  | c :: s' => if c <=? 32 then lstrip_c0 s' else s
  end.

Definition remove_unsafe (s : pystr) : pystr :=
  List.filter (fun c => negb ((c =? 9) || (c =? 10) || (c =? 13))) s.

Definition is_ascii_alpha (c : codepoint) : bool :=
  ((65 <=? c) && (c <=? 90)) || ((97 <=? c) && (c <=? 122)).

Definition is_scheme_char (c : codepoint) : bool :=
  is_ascii_alpha c || ((48 <=? c) && (c <=? 57))
  || (c =? 43) || (c =? 45) || (c =? 46).

(** [s.find(c)] for one character: [None] stands for [-1]. *)
Fixpoint find_cp (c : codepoint) (s : pystr) : option nat :=
  match s with
  | [] => None
  | x :: s' =>
    if x =? c then Some O
    else match find_cp c s' with Some i => Some (S i) | None => None end
  end.

Definition cut_scheme (url : pystr) : pystr :=
  match find_cp 58 url, url with
  | Some (S i), c0 :: _ =>
    if is_ascii_alpha c0 && forallb is_scheme_char (firstn (S i) url)
    then skipn (S (S i)) url
    else url
  | _, _ => url
  end.

Fixpoint take_authority (s : pystr) : pystr :=
  match s with
  | [] => []
  | c :: s' =>
    if (c =? 47) || (c =? 63) || (c =? 35) then [] else c :: take_authority s'
  end.

Definition mem_cp (c : codepoint) (s : pystr) : bool :=
  existsb (N.eqb c) s.

Definition urlsplit_netloc (url0 : pystr) : result pystr :=
  let url := cut_scheme (remove_unsafe (lstrip_c0 url0)) in
  match url with
  | 47 :: 47 :: rest =>
    let netloc := take_authority rest in
    if xorb (mem_cp 91 netloc) (mem_cp 93 netloc)
    then Raise (ValueError (py "Invalid IPv6 URL"))
    else Ok netloc
  | _ => Ok []
  end.

Local Close Scope N_scope.

Definition reference_runtime : Runtime := {|
  lower := ascii_lower;
  urlparse_netloc := urlsplit_netloc;
  lower_nil := eq_refl;
  netloc_nil := eq_refl
|}.

(** ** [cross_validator.py]: class [CrossValidator] *)

Module CrossValidator.

(** A source as the data model has it: a dict whose ['url'] and ['type']
    are strings when present. *)
Record source := {
  src_url : option pystr;
  src_type : option pystr
}.

(** [source.get('url', '')] *)
Definition url_of (s : source) : pystr :=
  match src_url s with Some u => u | None => [] end.

(** The credibility levels ['A'], ['B'], ['C'], ['D']. *)
Inductive tier := A | B | C | D.

Record independence := {
  is_independent : bool;
  unique_domains : list pystr;
  total_sources : nat
}.

Record brand_result := {
  brand : pystr;
  brand_is_valid : bool;
  brand_checks : list (pystr * bool);
  domain_analysis : independence;
  credibility_scores : list tier
}.

Record policy_result := {
  title : pyval;
  policy_is_valid : bool;
  policy_checks : list (pystr * bool)
}.

(** [self.validation_rules['brand']['forbidden_patterns']] *)
Definition forbidden_patterns : list pystr :=
  [py "文创品牌"; py "文旅综合体"; py "非遗活化"].

(** The dict [credibility_levels], in its insertion order. *)
Definition credibility_levels : list (tier * list pystr) :=
  [ (A, [py "tmall.com"; py "jd.com"; py "gov.cn"]);
    (B, [py "36kr.com"; py "huxiu.com"; py "sina.com.cn"; py "qq.com"]);
    (C, [py "xiaohongshu.com"; py "douyin.com"; py "zhihu.com"]) ].

(** The loop over [credibility_levels.items()], and the final [return 'D']. *)
Fixpoint first_level (domain : pystr) (levels : list (tier * list pystr))
  : tier :=
  match levels with
  | [] => D
  | (level, domains) :: rest =>
    if existsb (fun d => contains d domain) domains then level
    else first_level domain rest
  end.

(** [checks[name]] of a result. *)
Fixpoint check (name : pystr) (checks : list (pystr * bool)) : option bool :=
  match checks with
  | [] => None
  | (n, b) :: rest => if str_eqb name n then Some b else check name rest
  end.

(** [s in ['A', 'B']] *)
Definition credible (t : tier) : bool :=
  match t with A | B => true | _ => false end.

(** [all(p in title for p in patterns)]: the generator stops at the first
    [False]. *)
Fixpoint all_in (patterns : list pystr) (v : pyval) : result bool :=
  match patterns with
  | [] => Ok true
  | p :: rest => b <- py_in p v ;; if b then all_in rest v else Ok false
  end.

Section Validator.
Context {RT : Runtime}.

Definition check_source_independence (sources : list source)
  : result independence :=
  domains <- mapM (fun s => urlparse_netloc (url_of s)) sources ;;
  let unique : gset (list N) := list_to_set domains in
  Ok {| is_independent := (2 <=? size unique)%nat;
        unique_domains := elements unique;
        total_sources := length sources |}.

Definition check_source_credibility (url : pystr) : result tier :=
  netloc <- urlparse_netloc url ;;
  let domain := lower netloc in
  Ok (first_level domain credibility_levels).

Definition validate_brand_cross (brand_name : pystr) (sources : list source)
  : result brand_result :=
  let source_count := (2 <=? length sources)%nat in
  independence <- check_source_independence sources ;;
  scores <- mapM (fun s => check_source_credibility (url_of s)) sources ;;
  let has_credible := existsb credible scores in
  let not_template :=
    negb (existsb (fun p => contains p brand_name) forbidden_patterns) in
  let checks :=
    [ (py "source_count", source_count);
      (py "independence", is_independent independence);
      (py "has_credible_source", has_credible);
      (py "not_template", not_template) ] in
  Ok {| brand := brand_name;
        brand_is_valid := forallb snd checks;
        brand_checks := checks;
        domain_analysis := independence;
        credibility_scores := scores |}.

(** [is_gov_source]: the branch on [source_url] of [validate_policy_cross]. *)
Definition is_gov_source (source_url : pyval) : result bool :=
  if truthy source_url then
    match source_url with
    | VStr s => Ok (contains (py "gov.cn") (lower s))
    | _ => Raise AttributeError
    end
  else Ok false.

Definition validate_policy_cross (policy_data : pydict)
  : result policy_result :=
  title40 <- slice_to 40 (get (py "title") (VStr []) policy_data) ;;
  let doc_number := get (py "doc_number") (VStr []) policy_data in
  let has_doc_number := truthy doc_number in
  let source_url := get (py "source_url") (VStr []) policy_data in
  let has_source_url := truthy source_url in
  is_gov <- is_gov_source source_url ;;
  let template_patterns :=
    [py "关于促进"; py "关于加快"; py "关于推动"; py "关于支持"] in
  let title := get (py "title") (VStr []) policy_data in
  all2 <- all_in (firstn 2 template_patterns) title ;;
  let checks :=
    [ (py "has_doc_number", has_doc_number);
      (py "has_source_url", has_source_url);
      (py "is_gov_source", is_gov);
      (py "not_template", negb all2) ] in
  Ok {| title := title40;
        policy_is_valid := has_doc_number || is_gov;
        policy_checks := checks |}.

End Validator.

(** *** Notions the properties are stated with *)

(** Some domain of the list of level [t] occurs in [host]. *)
Definition host_matches (t : tier) (host : pystr) : Prop :=
  exists domains d,
    In (t, domains) credibility_levels /\ In d domains
    /\ contains d host = true.

(** A list of hosts has two different members. *)
Definition two_distinct (hosts : list pystr) : Prop :=
  exists a b, In a hosts /\ In b hosts /\ a <> b.

(** The hosts of a source list under a runtime. *)
Definition hosts_of {RT : Runtime} (sources : list source)
  : result (list pystr) :=
  mapM (fun s => urlparse_netloc (url_of s)) sources.

(** *** Sample inputs *)

Definition with_url (u : string) : source :=
  {| src_url := Some (py u); src_type := None |}.

Definition without_url : source :=
  {| src_url := None; src_type := Some (py "media") |}.

Definition gugong_sources : list source :=
  [with_url "https://gugong.tmall.com"; with_url "https://www.dpm.org.cn"].

Definition path_gov_policy : pydict :=
  [ (py "title", VStr (py "某地文化产业政策"));
    (py "source_url", VStr (py "https://example.com/gov.cn")) ].

Definition numbered_policy : pydict :=
  [ (py "title", VStr (py "关于促进文化产业发展的意见"));
    (py "doc_number", VStr (py "国办发〔2024〕1号")) ].

End CrossValidator.

(** ** [json.dumps(v, ensure_ascii=False)] and the other renderings *)

Local Open Scope N_scope.

Definition hex_digit (n : N) : codepoint :=
  if n <? 10 then 48 + n else 87 + n.

(** The escapes of [json.encoder]: the short ones, and [\u00XX] for the other
    characters below U+0020. *)
Definition json_escape_cp (c : codepoint) : pystr :=
  if c =? 34 then [92; 34]
  else if c =? 92 then [92; 92]
  else if c =? 10 then [92; 110]
  else if c =? 13 then [92; 114]
  else if c =? 9 then [92; 116]
  else if c =? 12 then [92; 102]
  else if c =? 8 then [92; 98]
  else if c <? 32
       then [92; 117; 48; 48; hex_digit (c / 16); hex_digit (c mod 16)]
  else [c].

Definition json_string (s : pystr) : pystr :=
  [34] ++ flat_map json_escape_cp s ++ [34].

Fixpoint uint_str (u : Decimal.uint) : pystr :=
  match u with
  | Decimal.Nil => []
  | Decimal.D0 u' => 48 :: uint_str u'
  | Decimal.D1 u' => 49 :: uint_str u'
  | Decimal.D2 u' => 50 :: uint_str u'
  | Decimal.D3 u' => 51 :: uint_str u'
  | Decimal.D4 u' => 52 :: uint_str u'
  | Decimal.D5 u' => 53 :: uint_str u'
  | Decimal.D6 u' => 54 :: uint_str u'
  | Decimal.D7 u' => 55 :: uint_str u'
  | Decimal.D8 u' => 56 :: uint_str u'
  | Decimal.D9 u' => 57 :: uint_str u'
  end.

(** [str(n)] for a natural number. *)
Definition nat_str (n : N) : pystr := uint_str (N.to_uint n).

(** [str(z)] for an [int]. *)
Definition int_str (z : Z) : pystr :=
  match z with
  | Z0 => [48]
  | Zpos p => nat_str (Npos p)
  | Zneg p => 45 :: nat_str (Npos p)
  end.

Fixpoint json_dumps (v : pyval) : pystr :=
  match v with
  | VNone => py "null"
  | VBool b => if b then py "true" else py "false"
  | VInt z => int_str z
  | VStr s => json_string s
  | VList l => [91] ++ join (py ", ") (map json_dumps l) ++ [93]
  | VDict d =>
    [123]
    ++ join (py ", ")
         (map (fun '(k, x) => json_string k ++ py ": " ++ json_dumps x) d)
    ++ [125]
  end.

(** [repr(s)] of a string of printable characters: double quotes when the
    string has a single quote and no double quote, single quotes otherwise;
    the quote, the backslash, and tab, LF and CR are escaped. *)
Definition repr_quote (s : pystr) : codepoint :=
  if mem_cp 39 s && negb (mem_cp 34 s) then 34 else 39.

Definition repr_cp (q c : codepoint) : pystr :=
  if (c =? q) || (c =? 92) then [92; c]
  else if c =? 9 then [92; 116]
  else if c =? 10 then [92; 110]
  else if c =? 13 then [92; 114]
  else [c].

Definition repr_str (s : pystr) : pystr :=
  let q := repr_quote s in [q] ++ flat_map (repr_cp q) s ++ [q].

(** [str(l)] of a list of strings. *)
Definition repr_list (l : list pystr) : pystr :=
  [91] ++ join (py ", ") (map repr_str l) ++ [93].

(** [datetime.now()] is an input of the wrapper; [isoformat()] prints it as
    [YYYY-MM-DDTHH:MM:SS], followed by [.ffffff] when the microseconds are
    not zero. *)
Record datetime := {
  year : N; month : N; day : N;
  hour : N; minute : N; second : N; microsecond : N
}.

(** [s.zfill(w)] *)
Definition zfill (w : nat) (s : pystr) : pystr :=
  repeat 48 (w - length s)%nat ++ s.

Definition isoformat (t : datetime) : pystr :=
  zfill 4 (nat_str (year t)) ++ [45] ++ zfill 2 (nat_str (month t)) ++ [45]
  ++ zfill 2 (nat_str (day t)) ++ [84] ++ zfill 2 (nat_str (hour t)) ++ [58]
  ++ zfill 2 (nat_str (minute t)) ++ [58] ++ zfill 2 (nat_str (second t))
  ++ (if microsecond t =? 0 then []
      else [46] ++ zfill 6 (nat_str (microsecond t))).

Local Close Scope N_scope.

(** ** [verification_middleware.py]: class [VerificationMiddleware] *)

Module Middleware.

(** The levels ['A'], ['CONDITIONAL'], ['REJECTED']. *)
Inductive level := A | CONDITIONAL | REJECTED.

Definition level_str (l : level) : pystr :=
  match l with
  | A => py "A"
  | CONDITIONAL => py "CONDITIONAL"
  | REJECTED => py "REJECTED"
  end.

(** The dict [{'errors': ..., 'warnings': ...}] each checker returns. *)
Record findings := {
  f_errors : list pystr;
  f_warnings : list pystr
}.

(** The dict [verify_data] returns. *)
Record verdict := {
  passed : bool;
  v_level : level;
  errors : list pystr;
  warnings : list pystr
}.

Definition template_patterns : list pystr :=
  [ py "文创品牌"; py "文旅综合体"; py "非遗活化"; py "数字文创"; py "文创街区";
    py "{city}"; py "{region}"; py "某"; py "示例"; py "测试" ].

Definition vague_words : list pystr :=
  [ py "可能"; py "大概"; py "也许"; py "估计"; py "应该"; py "据说" ].

Definition template_error (pattern : pystr) : pystr :=
  py "疑似AI生成/模板数据: 包含'" ++ pattern ++ py "'".

Definition vague_warning (word : pystr) : pystr :=
  py "包含模糊表述: '" ++ word ++ py "'".

Definition kpi_warning (key : pystr) : pystr :=
  py "KPI数据'" ++ key ++ py "'缺少来源标注".

Definition missing_field_error (field : pystr) : pystr :=
  py "缺少必填字段: " ++ field.

Definition policy_error : pystr := py "政策文件必须提供文号或来源链接".

Definition no_source_warning : pystr := py "缺少数据来源信息".

Definition url_format_error : pystr := py "来源URL格式错误".

(** The loop over [template_patterns]: [pattern in name] raises when [name]
    is not iterable. *)
Fixpoint scan_templates (patterns : list pystr) (name : pyval)
  : result (list pystr) :=
  match patterns with
  | [] => Ok []
  | pattern :: rest =>
    b <- py_in pattern name ;;
    es <- scan_templates rest name ;;
    Ok (if b then template_error pattern :: es else es)
  end.

(** The loop over [vague_words]. *)
Definition scan_vague (data_str : pystr) : list pystr :=
  map vague_warning
    (List.filter (fun word => contains word data_str) vague_words).

(** The loop over [kpi.items()]. *)
Definition scan_kpi (data_str : pystr) (kpi : pydict) : list pystr :=
  flat_map
    (fun '(key, value) =>
       match value with
       | VStr s =>
         if contains (py "万") s || contains (py "亿") s then
           if negb (contains (py "来源") data_str)
              && negb (contains (py "source") data_str)
           then [kpi_warning key]
           else []
         else []
       | _ => []
       end)
    kpi.

Definition _check_hallucination (data : pydict) : result findings :=
  let name := get (py "name") (get (py "title") (VStr []) data) data in
  errors <- scan_templates template_patterns name ;;
  let data_str := json_dumps (VDict data) in
  let warnings1 := scan_vague data_str in
  let warnings2 :=
    match lookup_key (py "kpi") data with
    | Some (VDict kpi) => scan_kpi data_str kpi
    | _ => []
    end in
  Ok {| f_errors := errors; f_warnings := warnings1 ++ warnings2 |}.

Definition required : list pystr := [py "name"; py "region"; py "category"].

Definition _check_required_fields (data : pydict) : result findings :=
  let errors1 :=
    if has_key (py "category") data then
      map missing_field_error
        (List.filter (fun field => negb (truthy (get_none field data))) required)
    else [] in
  is_policy <-
    (if has_key (py "title") data
     then py_in (py "政策") (get (py "category") (VStr []) data)
     else Ok false) ;;
  let errors2 :=
    if is_policy
       && negb (truthy (get_none (py "doc_number") data))
       && negb (truthy (get_none (py "source_url") data))
    then [policy_error] else [] in
  Ok {| f_errors := errors1 ++ errors2; f_warnings := [] |}.

(** [v == 'real_brand'] *)
Definition is_real_brand (v : pyval) : bool :=
  match v with VStr s => str_eqb s (py "real_brand") | _ => false end.

Definition _check_sources (data : pydict) : result findings :=
  let has_source :=
    existsb (fun b : bool => b)
      [ truthy (get_none (py "source_url") data);
        truthy (get_none (py "sources") data);
        is_real_brand (get_none (py "type") data);
        truthy (get_none (py "verified") data) ] in
  let warnings := if has_source then [] else [no_source_warning] in
  let source_url := get (py "source_url") (VStr []) data in
  errors <-
    (if truthy source_url then
       match source_url with
       | VStr s =>
         Ok (if startswith (py "http://") s || startswith (py "https://") s
             then [] else [url_format_error])
       | _ => Raise AttributeError
       end
     else Ok []) ;;
  Ok {| f_errors := errors; f_warnings := warnings |}.

(** Lines 74 to 87: the level and the returned dict. *)
Definition make_verdict (errors warnings : list pystr) : verdict :=
  let level :=
    match errors, warnings with
    | _ :: _, _ => REJECTED
    | [], _ :: _ => CONDITIONAL
    | [], [] => A
    end in
  {| passed := (length errors =? 0)%nat;
     v_level := level;
     errors := errors;
     warnings := warnings |}.

Definition verify_data (data : pydict) : result verdict :=
  hallucination_checks <- _check_hallucination data ;;
  field_checks <-
    (if has_key (py "name") data || has_key (py "title") data
     then _check_required_fields data
     else Ok {| f_errors := []; f_warnings := [] |}) ;;
  source_checks <- _check_sources data ;;
  Ok (make_verdict
        (f_errors hallucination_checks ++ f_errors field_checks
         ++ f_errors source_checks)
        (f_warnings hallucination_checks ++ f_warnings field_checks
         ++ f_warnings source_checks)).

(** The key under which the wrapper stores its mark. *)
Definition mark_key : pystr := py "_verification".

(** The message of the [ValueError] of strict mode. *)
Definition failure_message (errors : list pystr) (data : pydict) : pystr :=
  py "数据验证失败: " ++ repr_list errors ++ [10%N]
  ++ py "数据: " ++ firstn 200 (json_dumps (VDict data)).

Definition pending_mark (errors : list pystr) (now : datetime) : pyval :=
  VDict [ (py "status", VStr (py "PENDING"));
          (py "errors", VList (map VStr errors));
          (py "timestamp", VStr (isoformat now)) ].

Definition verified_mark (l : level) (now : datetime) : pyval :=
  VDict [ (py "status", VStr (py "VERIFIED"));
          (py "level", VStr (level_str l));
          (py "timestamp", VStr (isoformat now)) ].

(** The [wrapper] of [validate_required], applied to the value the wrapped
    function returned; [now] is the clock reading. *)
Definition validate_required (strict_mode : bool) (now : datetime)
  (func_result : pyval) : result pyval :=
  match func_result with
  | VDict data =>
    validation_result <- verify_data data ;;
    if negb (passed validation_result) then
      if strict_mode then
        Raise (ValueError (failure_message (errors validation_result) data))
      else
        Ok (VDict (set_item mark_key
                     (pending_mark (errors validation_result) now) data))
    else
      Ok (VDict (set_item mark_key
                   (verified_mark (v_level validation_result) now) data))
  | _ => Ok func_result
  end.

(** [require_verification]: the middleware instance starts in strict mode. *)
Definition require_verification (now : datetime) (func_result : pyval)
  : result pyval :=
  validate_required true now func_result.

(** *** Notions the properties are stated with *)

Local Open Scope N_scope.

(** The characters [isoformat] prints: digits, [-], [.], [:] and [T]. *)
Definition is_iso_char (c : codepoint) : bool :=
  ((48 <=? c) && (c <=? 57)) || (c =? 45) || (c =? 46) || (c =? 58)
  || (c =? 84).

(** The text [json.dumps] prints for the mark of an accepted record, up to
    the opening quote of the timestamp. *)
Definition mark_prefix (l : level) : pystr :=
  json_string mark_key ++ py ": {"
  ++ json_string (py "status") ++ py ": " ++ json_string (py "VERIFIED")
  ++ py ", "
  ++ json_string (py "level") ++ py ": " ++ json_string (level_str l)
  ++ py ", "
  ++ json_string (py "timestamp") ++ py ": ".

(** A word that the text of a mark cannot complete: it has none of the
    separators of [json.dumps], it has a character that no timestamp has,
    and it does not occur in the fixed part of the mark. *)
Definition foreign_to_mark (p : pystr) : bool :=
  negb (mem_cp 123 p) && negb (mem_cp 125 p) && negb (mem_cp 44 p)
  && negb (mem_cp 32 p) && negb (mem_cp 34 p)
  && existsb (fun c => negb (is_iso_char c)) p
  && forallb (fun l => negb (contains p (mark_prefix l)))
       [A; CONDITIONAL; REJECTED].

Local Close Scope N_scope.

(** One item of a dict as [json.dumps] prints it. *)
Definition dict_item (kv : pystr * pyval) : pystr :=
  json_string (fst kv) ++ py ": " ++ json_dumps (snd kv).

(** *** Sample inputs *)

Definition sample_now : datetime :=
  {| year := 2026; month := 11; day := 3;
     hour := 9; minute := 5; second := 0; microsecond := 0 |}.

(** The three records of the demonstration at the end of the source. *)
Definition gugong_record : pydict :=
  [ (py "name", VStr (py "故宫淘宝"));
    (py "region", VStr (py "北京市"));
    (py "category", VStr (py "博物馆文创"));
    (py "type", VStr (py "real_brand"));
    (py "source_url", VStr (py "https://gugong.tmall.com")) ].

Definition template_record : pydict :=
  [ (py "name", VStr (py "北京文创品牌"));
    (py "region", VStr (py "北京市"));
    (py "category", VStr (py "文创IP")) ].

Definition popmart_record : pydict :=
  [ (py "name", VStr (py "泡泡玛特"));
    (py "region", VStr (py "北京市"));
    (py "category", VStr (py "潮玩盲盒"));
    (py "kpi", VDict [(py "revenue", VStr (py "10亿+"))]);
    (py "type", VStr (py "real_brand")) ].

(** A record whose name is [None]. *)
Definition null_name_record : pydict :=
  [ (py "name", VNone); (py "type", VStr (py "real_brand")) ].

(** A record that comes with a ['_verification'] field of its own. *)
Definition draft_record : pydict :=
  [ (py "name", VStr (py "故宫淘宝"));
    (py "type", VStr (py "real_brand"));
    (mark_key, VStr (py "draft")) ].

(** A record that still carries the mark of an earlier rejection. *)
Definition stale_record : pydict :=
  [ (py "name", VStr (py "泡泡玛特"));
    (py "kpi", VDict [(py "revenue", VStr (py "10亿+"))]);
    (py "type", VStr (py "real_brand"));
    (mark_key, pending_mark [url_format_error] sample_now) ].

(** A record with a category and neither a name nor a title. *)
Definition nameless_record : pydict :=
  [ (py "category", VStr (py "潮玩盲盒"));
    (py "region", VStr []);
    (py "type", VStr (py "real_brand")) ].

End Middleware.

(** ** [cross_validator.py]: [generate_validation_report] *)

Module Reporting.
Import CrossValidator.

(** An item of a batch is a dict.  The brand branch reads its ['name'] and
    ['sources'] entries, typed as the data model has them; the policy branch
    passes the dict on as a policy record. *)
Record item := {
  item_name : option pystr;
  item_sources : option (list source);
  item_record : pydict
}.

(** An entry of [report['details']]: the result of either validator. *)
Inductive detail :=
| BrandDetail (r : brand_result)
| PolicyDetail (r : policy_result).

(** [result['is_valid']] *)
Definition detail_is_valid (d : detail) : bool :=
  match d with
  | BrandDetail r => brand_is_valid r
  | PolicyDetail r => policy_is_valid r
  end.

Record report := {
  data_type : pystr;
  total : nat;
  passed : nat;
  failed : nat;
  details : list detail
}.

(** Lines 167 to 172: count the result and append it. *)
Definition record_result (rep : report) (d : detail) : report :=
  {| data_type := data_type rep;
     total := total rep;
     passed := if detail_is_valid d then S (passed rep) else passed rep;
     failed := if detail_is_valid d then failed rep else S (failed rep);
     details := details rep ++ [d] |}.

Section Report.
Context {RT : Runtime}.

(** Lines 157 to 165: the validator the data type selects; [None] stands
    for [continue]. *)
Definition validate_item (dtype : pystr) (it : item)
  : result (option detail) :=
  if str_eqb dtype (py "brand") then
    r <- validate_brand_cross
           (match item_name it with Some n => n | None => [] end)
           (match item_sources it with Some l => l | None => [] end) ;;
    Ok (Some (BrandDetail r))
  else if str_eqb dtype (py "policy") then
    r <- validate_policy_cross (item_record it) ;;
    Ok (Some (PolicyDetail r))
  else Ok None.

(** The loop over [items], threading the report. *)
Fixpoint report_loop (dtype : pystr) (items : list item) (rep : report)
  : result report :=
  match items with
  | [] => Ok rep
  | it :: rest =>
    o <- validate_item dtype it ;;
    match o with
    | None => report_loop dtype rest rep
    | Some d => report_loop dtype rest (record_result rep d)
    end
  end.

Definition generate_validation_report (items : list item) (dtype : pystr)
  : result report :=
  report_loop dtype items
    {| data_type := dtype; total := length items;
       passed := 0; failed := 0; details := [] |}.

End Report.

(** *** Sample inputs *)

Definition gugong_item : item :=
  {| item_name := Some (py "故宫淘宝");
     item_sources := Some gugong_sources;
     item_record := [(py "name", VStr (py "故宫淘宝"))] |}.

Definition template_item : item :=
  {| item_name := Some (py "北京文创品牌");
     item_sources := Some [with_url "https://example.com/1"];
     item_record := [(py "name", VStr (py "北京文创品牌"))] |}.

End Reporting.

(** ** [verification_middleware.py]: class [VerificationReporter] *)

Module Reporter.

(** An entry of [self.reports]. *)
Record entry := {
  entry_timestamp : pystr;
  data_summary : pystr;
  entry_result : pyval
}.

(** The dict [generate_summary] returns. *)
Record summary := {
  total : nat;
  passed : nat;
  failed : nat;
  pass_rate : pystr;
  timestamp : pystr
}.

(** [r['result']['passed']] as a condition: a dict is subscripted by its
    key, nothing else of the value model is subscripted by a string. *)
Definition passed_of (res : pyval) : result bool :=
  match res with
  | VDict d =>
    match lookup_key (py "passed") d with
    | Some v => Ok (truthy v)
    | None => Raise KeyError
    end
  | _ => Raise TypeError
  end.

(** [sum(1 for r in self.reports if r['result']['passed'])] *)
Fixpoint count_passed (reports : list entry) : result nat :=
  match reports with
  | [] => Ok O
  | r :: rest =>
    b <- passed_of (entry_result r) ;;
    n <- count_passed rest ;;
    Ok (if b then S n else n)
  end.

(** The dict [verify_data] returns, as a value. *)
Definition verdict_dict (v : Middleware.verdict) : pyval :=
  VDict [ (py "passed", VBool (Middleware.passed v));
          (py "level", VStr (Middleware.level_str (Middleware.v_level v)));
          (py "errors", VList (map VStr (Middleware.errors v)));
          (py "warnings", VList (map VStr (Middleware.warnings v))) ].

(** [str(data)] and the float formatting [f"{passed/total*100:.1f}%"] belong
    to the runtime; the reporter is stated over any two such functions. *)
Section Reporter.
Variable py_str : pyval -> pystr.
Variable format_rate : nat -> nat -> pystr.

(** [add_report]: [self.reports] before and after; [now] is the clock
    reading. *)
Definition add_report (reports : list entry) (now : datetime)
  (data result : pyval) : list entry :=
  reports
  ++ [ {| entry_timestamp := isoformat now;
          data_summary := firstn 100 (py_str data);
          entry_result := result |} ].

Definition generate_summary (reports : list entry) (now : datetime)
  : result summary :=
  let total := length reports in
  passed <- count_passed reports ;;
  let failed := (total - passed)%nat in
  Ok {| total := total;
        passed := passed;
        failed := failed;
        pass_rate := if (0 <? total)%nat then format_rate passed total
                     else py "0%";
        timestamp := isoformat now |}.

End Reporter.

(** [self.reports] after one [add_report] per record of a batch, each with
    the verdict that goes with it. *)
Definition add_all (py_str : pyval -> pystr) (now : datetime)
  (batch : list (pyval * Middleware.verdict)) : list entry :=
  fold_left
    (fun reports '(data, v) =>
       add_report py_str reports now data (verdict_dict v))
    batch [].

End Reporter.

(** ** Further sample inputs *)

Module MoreSamples.
Import Middleware.

(** A record whose source URL has another scheme. *)
Definition ftp_record : pydict :=
  [ (py "name", VStr (py "故宫淘宝"));
    (py "source_url", VStr (py "ftp://gugong.example/brand")) ].


(** A record with a KPI and an empty source list. *)
Definition listed_kpi_record : pydict :=
  [ (py "name", VStr (py "泡泡玛特"));
    (py "kpi", VDict [(py "revenue", VStr (py "10亿+"))]);
    (py "sources", VList []);
    (py "type", VStr (py "real_brand")) ].

(** A record with an empty name and a template title. *)
Definition empty_name_record : pydict :=
  [ (py "name", VStr []);
    (py "title", VStr (py "某市文创品牌"));
    (py "verified", VBool true) ].

(** A later clock reading. *)
Definition later_now : datetime :=
  {| year := 2026; month := 11; day := 4;
     hour := 10; minute := 30; second := 15; microsecond := 250000 |}.

(** A batch of two verdicts, one accepted and one rejected. *)
Definition two_verdicts : list (pyval * verdict) :=
  [ (VDict gugong_record, make_verdict [] []);
    (VDict template_record,
     make_verdict [template_error (py "文创品牌")] [no_source_warning]) ].

End MoreSamples.

(** * Properties *)

(** Closed goals about concrete inputs are settled by evaluation. *)
Ltac evaluate := vm_compute; reflexivity.

(** ** The renderings and the demonstrations of the source, evaluated *)

Example py_ascii : py "gov.cn" = [103; 111; 118; 46; 99; 110]%N.
Proof. evaluate. Qed.

Example py_cjk : py "来源" = [26469; 28304]%N.
Proof. evaluate. Qed.

Example contains_empty_pattern : contains [] (py "abc") = true.
Proof. evaluate. Qed.

Example json_dumps_nested :
  json_dumps (VDict [ (py "kpi", VDict [(py "n", VInt (-12))]);
                      (py "l", VList [VBool true; VNone]) ])
  = [123%N] ++ json_string (py "kpi") ++ py ": {"
    ++ json_string (py "n") ++ py ": -12}, "
    ++ json_string (py "l") ++ py ": [true, null]}".
Proof. evaluate. Qed.

Example json_string_escapes :
  json_string [10; 1; 31; 92; 27979]%N
  = [34%N] ++ [92; 110]%N ++ [92%N] ++ py "u0001" ++ [92%N] ++ py "u001f"
    ++ [92; 92]%N ++ py "测" ++ [34%N].
Proof. evaluate. Qed.

Example isoformat_sample :
  isoformat Middleware.sample_now = py "2026-11-03T09:05:00".
Proof. evaluate. Qed.

Example isoformat_microseconds :
  isoformat {| year := 987; month := 1; day := 2; hour := 23; minute := 59;
               second := 7; microsecond := 1234 |}
  = py "0987-01-02T23:59:07.001234".
Proof. evaluate. Qed.

Example netloc_plain :
  urlsplit_netloc (py "https://www.dpm.org.cn/path?q=1")
  = Ok (py "www.dpm.org.cn").
Proof. evaluate. Qed.

Example netloc_no_authority : urlsplit_netloc (py "not a url") = Ok [].
Proof. evaluate. Qed.

(** The two brands of the demonstration of [cross_validator.py]. *)
Example demo_brand_valid :
  exists r,
    @CrossValidator.validate_brand_cross reference_runtime (py "故宫淘宝")
      CrossValidator.gugong_sources = Ok r
    /\ CrossValidator.brand_is_valid r = true
    /\ CrossValidator.credibility_scores r
       = [CrossValidator.A; CrossValidator.D].
Proof. eexists. split; [evaluate|]. split; evaluate. Qed.

Example demo_brand_template :
  exists r,
    @CrossValidator.validate_brand_cross reference_runtime
      (py "北京文创品牌") [CrossValidator.with_url "https://example.com/1"]
    = Ok r
    /\ map snd (CrossValidator.brand_checks r) = [false; false; false; false]
    /\ CrossValidator.brand_is_valid r = false.
Proof. eexists. split; [evaluate|]. split; evaluate. Qed.

(** The three records of the demonstration of
    [verification_middleware.py]. *)
Example demo_gugong :
  Middleware.verify_data Middleware.gugong_record
  = Ok (Middleware.make_verdict [] []).
Proof. evaluate. Qed.

Example demo_template :
  Middleware.verify_data Middleware.template_record
  = Ok (Middleware.make_verdict
          [Middleware.template_error (py "文创品牌")]
          [Middleware.no_source_warning]).
Proof. evaluate. Qed.

Example demo_popmart :
  Middleware.verify_data Middleware.popmart_record
  = Ok (Middleware.make_verdict []
          [Middleware.kpi_warning (py "revenue")]).
Proof. evaluate. Qed.

(** ** Outcomes and sets *)

Lemma bind_ok {X Y} (m : result X) (k : X -> result Y) (y : Y) :
  bind m k = Ok y -> exists x, m = Ok x /\ k x = Ok y.
Proof. destruct m as [x|e]; simpl; [eauto | discriminate]. Qed.

Lemma mapM_length {X Y} (f : X -> result Y) (l : list X) (ys : list Y) :
  mapM f l = Ok ys -> length ys = length l.
Proof.
  revert ys. induction l as [|x l IH]; simpl; intros ys H.
  - injection H as <-. reflexivity.
  - apply bind_ok in H as (y & _ & H).
    apply bind_ok in H as (ys' & Hys & H).
    injection H as <-. simpl. f_equal. auto.
Qed.

Lemma mapM_In {X Y} (f : X -> result Y) (l : list X) (ys : list Y) (x : X) :
  mapM f l = Ok ys -> In x l -> exists y, f x = Ok y /\ In y ys.
Proof.
  revert ys. induction l as [|x0 l IH]; simpl; intros ys H Hin; [tauto|].
  apply bind_ok in H as (y0 & Hy0 & H).
  apply bind_ok in H as (ys' & Hys & H).
  injection H as <-.
  destruct Hin as [->|Hin].
  - exists y0. split; [assumption | now left].
  - destruct (IH ys' Hys Hin) as (y & Hy & Hyin).
    exists y. split; [assumption | now right].
Qed.

(** Running a second loop over the same items composes the two bodies. *)
Lemma mapM_compose {X Y Z} (f : X -> result Y) (g : Y -> Z) (l : list X)
  (ys : list Y) :
  mapM f l = Ok ys -> mapM (fun x => y <- f x ;; Ok (g y)) l = Ok (map g ys).
Proof.
  revert ys. induction l as [|x l IH]; simpl; intros ys H.
  - injection H as <-. reflexivity.
  - apply bind_ok in H as (y & Hy & H).
    apply bind_ok in H as (ys' & Hys & H).
    injection H as <-.
    rewrite Hy. simpl. rewrite (IH ys' Hys). reflexivity.
Qed.

Lemma size_two_distinct (X : gset (list N)) :
  (2 <= size X)%nat <-> exists a b, a ∈ X /\ b ∈ X /\ a <> b.
Proof.
  split.
  - intros Hsz.
    assert (Hlen : size X = length (elements X)) by reflexivity.
    pose proof (NoDup_elements X) as Hnd.
    destruct (elements X) as [|a [|b l]] eqn:E; simpl in Hlen; try lia.
    exists a, b. repeat split.
    + apply elem_of_elements. rewrite E. left.
    + apply elem_of_elements. rewrite E. right. left.
    + intros ->. apply NoDup_cons in Hnd as [Hnotin _]. apply Hnotin. left.
  - intros (a & b & Ha & Hb & Hab).
    assert (Hsub : ({[a]} ∪ {[b]} : gset (list N)) ⊆ X).
    { intros x Hx. apply elem_of_union in Hx as [Hx|Hx];
        apply elem_of_singleton in Hx; subst; assumption. }
    apply subseteq_size in Hsub.
    rewrite size_union in Hsub
      by (apply disjoint_singleton_l, not_elem_of_singleton; exact Hab).
    rewrite !size_singleton in Hsub. lia.
Qed.

(** ** The cross validator *)

Module CrossValidatorProofs.
Import CrossValidator.

Lemma host_matches_existsb (t : tier) (host : pystr) :
  host_matches t host <->
  exists domains, In (t, domains) credibility_levels
    /\ existsb (fun d => contains d host) domains = true.
Proof.
  unfold host_matches. split.
  - intros (domains & d & Hin & Hd & Hc). exists domains. split; [assumption|].
    apply existsb_exists. eauto.
  - intros (domains & Hin & Hex). apply existsb_exists in Hex as (d & Hd & Hc).
    eauto.
Qed.

Lemma no_level_D (domains : list pystr) : ~ In (D, domains) credibility_levels.
Proof. simpl. intros [H|[H|[H|[]]]]; discriminate. Qed.

(** [first_level] returns the first level of the table with a match, and
    [D] when there is none. *)
Lemma first_level_spec (host : pystr) :
  let t := first_level host credibility_levels in
  (t = A <-> host_matches A host)
  /\ (t = B <-> ~ host_matches A host /\ host_matches B host)
  /\ (t = C <-> ~ host_matches A host /\ ~ host_matches B host
                /\ host_matches C host)
  /\ (t = D <-> ~ host_matches A host /\ ~ host_matches B host
                /\ ~ host_matches C host).
Proof.
  assert (HA : forall t, host_matches t host <->
    match t with
    | A => existsb (fun d => contains d host)
             [py "tmall.com"; py "jd.com"; py "gov.cn"] = true
    | B => existsb (fun d => contains d host)
             [py "36kr.com"; py "huxiu.com"; py "sina.com.cn"; py "qq.com"]
           = true
    | C => existsb (fun d => contains d host)
             [py "xiaohongshu.com"; py "douyin.com"; py "zhihu.com"] = true
    | D => False
    end).
  { intros t. rewrite host_matches_existsb. unfold credibility_levels. split.
    - intros (domains & [H|[H|[H|[]]]] & Hex); injection H as <- <-; exact Hex.
    - destruct t; intros H; try contradiction; eexists;
        (split; [|exact H]); simpl; auto. }
  unfold credibility_levels; cbn [first_level].
  rewrite (HA A), (HA B), (HA C).
  destruct (existsb _ [py "tmall.com"; _; _]);
  destruct (existsb _ [py "36kr.com"; _; _; _]);
  destruct (existsb _ [py "xiaohongshu.com"; _; _]);
  repeat split; intros; try discriminate; try tauto; try reflexivity;
    intuition discriminate.
Qed.

Section Validator.
Context {RT : Runtime}.

Lemma hosts_of_In (sources : list source) (hosts : list pystr) (h : pystr) :
  hosts_of sources = Ok hosts -> In h hosts ->
  exists s, In s sources /\ urlparse_netloc (url_of s) = Ok h.
Proof.
  unfold hosts_of. revert hosts.
  induction sources as [|s0 l IH]; simpl; intros hosts H Hin.
  - injection H as <-. destruct Hin.
  - apply bind_ok in H as (h0 & Hh0 & H).
    apply bind_ok in H as (hs & Hhs & H).
    injection H as <-.
    destruct Hin as [<-|Hin].
    + exists s0. split; [now left | assumption].
    + destruct (IH hs Hhs Hin) as (s & Hs & Hsh).
      exists s. split; [now right | assumption].
Qed.

Lemma check_source_credibility_of_host (url host : pystr) :
  urlparse_netloc url = Ok host ->
  check_source_credibility url
  = Ok (first_level (lower host) credibility_levels).
Proof. intros H. unfold check_source_credibility. rewrite H. reflexivity. Qed.

(** An exception of [urlparse] leaves the classifier as it is. *)
Lemma check_source_credibility_raise (url : pystr) (e : pyexn) :
  urlparse_netloc url = Raise e -> check_source_credibility url = Raise e.
Proof. intros H. unfold check_source_credibility. rewrite H. reflexivity. Qed.

Lemma check_source_independence_of_hosts (sources : list source)
  (hosts : list pystr) :
  hosts_of sources = Ok hosts ->
  check_source_independence sources
  = Ok {| is_independent :=
            (2 <=? size (list_to_set hosts : gset (list N)))%nat;
          unique_domains := elements (list_to_set hosts : gset (list N));
          total_sources := length sources |}.
Proof.
  unfold hosts_of, check_source_independence. intros ->. reflexivity.
Qed.

Lemma two_distinct_size (hosts : list pystr) :
  (2 <=? size (list_to_set hosts : gset (list N)))%nat = true
  <-> two_distinct hosts.
Proof.
  rewrite Nat.leb_le, size_two_distinct. unfold two_distinct.
  split; intros (a & b & Ha & Hb & Hab); exists a, b.
  - rewrite elem_of_list_to_set, list_elem_of_In in Ha, Hb. auto.
  - rewrite !elem_of_list_to_set, !list_elem_of_In. auto.
Qed.

Lemma credibility_scores_of_hosts (sources : list source)
  (hosts : list pystr) :
  hosts_of sources = Ok hosts ->
  mapM (fun s => check_source_credibility (url_of s)) sources
  = Ok (map (fun h => first_level (lower h) credibility_levels) hosts).
Proof.
  intros H.
  exact (mapM_compose (fun s => urlparse_netloc (url_of s))
           (fun h => first_level (lower h) credibility_levels)
           sources hosts H).
Qed.

(** C6, as the code has it: on every URL that [urlparse] accepts, the
    classifier returns exactly one level, the first of A, B, C whose domain
    list has a member occurring in the lower-cased host, and D when none
    has; an empty host gives D.  (An exception of [urlparse] is passed on:
    [check_source_credibility_raise].) *)
Theorem check_source_credibility_first_match (url host : pystr) :
  urlparse_netloc url = Ok host ->
  exists t,
    check_source_credibility url = Ok t
    /\ (t = A <-> host_matches A (lower host))
    /\ (t = B <-> ~ host_matches A (lower host)
                  /\ host_matches B (lower host))
    /\ (t = C <-> ~ host_matches A (lower host)
                  /\ ~ host_matches B (lower host)
                  /\ host_matches C (lower host))
    /\ (t = D <-> ~ host_matches A (lower host)
                  /\ ~ host_matches B (lower host)
                  /\ ~ host_matches C (lower host))
    /\ (host = [] -> t = D).
Proof.
  intros H. exists (first_level (lower host) credibility_levels).
  rewrite (check_source_credibility_of_host url host H).
  pose proof (first_level_spec (lower host)) as Hs. cbv zeta in Hs.
  destruct Hs as (HA & HB & HC & HD).
  split; [reflexivity|]. split; [exact HA|]. split; [exact HB|].
  split; [exact HC|]. split; [exact HD|].
  intros ->. rewrite lower_nil. reflexivity.
Qed.

(** C7, as the code has it: on sources whose URLs [urlparse] accepts, the
    checker takes the host of every source (of the empty URL when the
    source has none), reports independence exactly when two different
    hosts occur, that is when the set of hosts has at least two members,
    and counts all the sources. *)
Theorem check_source_independence_distinct_hosts (sources : list source)
  (hosts : list pystr) :
  hosts_of sources = Ok hosts ->
  exists r,
    check_source_independence sources = Ok r
    /\ (is_independent r = true <-> two_distinct hosts)
    /\ (is_independent r = true
        <-> (2 <= size (list_to_set hosts : gset (list N)))%nat)
    /\ (is_independent r = true <-> (2 <= length (unique_domains r))%nat)
    /\ (forall h, In h (unique_domains r) <-> In h hosts)
    /\ List.NoDup (unique_domains r)
    /\ total_sources r = length sources
    /\ length hosts = length sources
    /\ (forall s, In s sources -> src_url s = None -> In [] hosts)
    /\ (sources = [] -> is_independent r = false).
Proof.
  intros H. eexists. split.
  { apply check_source_independence_of_hosts. exact H. }
  cbn [is_independent unique_domains total_sources].
  split; [apply two_distinct_size|].
  split; [apply Nat.leb_le|].
  split; [apply Nat.leb_le|].
  split.
  { intros h. rewrite <- !list_elem_of_In, elem_of_elements.
    apply elem_of_list_to_set. }
  split; [apply NoDup_ListNoDup, NoDup_elements|].
  split; [reflexivity|].
  split; [exact (mapM_length _ _ _ H)|].
  split.
  - intros s Hs Hnone.
    destruct (mapM_In _ _ _ s H Hs) as (h & Hh & Hin).
    unfold url_of in Hh. rewrite Hnone, netloc_nil in Hh.
    injection Hh as <-. exact Hin.
  - intros ->. unfold hosts_of in H. simpl in H. injection H as <-.
    reflexivity.
Qed.

(** On sources whose URLs [urlparse] accepts the brand validator returns,
    with the four checks and their conjunction. *)
Lemma validate_brand_cross_of_hosts (brand_name : pystr)
  (sources : list source) (hosts : list pystr) :
  hosts_of sources = Ok hosts ->
  exists r c1 c2 c3 c4,
    validate_brand_cross brand_name sources = Ok r
    /\ brand_checks r
       = [ (py "source_count", c1); (py "independence", c2);
           (py "has_credible_source", c3); (py "not_template", c4) ]
    /\ (c1 = true <-> (2 <= length sources)%nat)
    /\ (c2 = true <-> two_distinct hosts)
    /\ (c3 = true <->
        exists s t, In s sources
          /\ check_source_credibility (url_of s) = Ok t
          /\ (t = A \/ t = B))
    /\ (c4 = true <->
        forall p, In p forbidden_patterns -> contains p brand_name = false)
    /\ brand_is_valid r = c1 && c2 && c3 && c4
    /\ (brand_is_valid r = true
        <-> c1 = true /\ c2 = true /\ c3 = true /\ c4 = true).
Proof.
  intros H. unfold validate_brand_cross.
  rewrite (check_source_independence_of_hosts sources hosts H).
  rewrite (credibility_scores_of_hosts sources hosts H).
  cbn [bind is_independent].
  do 5 eexists. split; [reflexivity|].
  cbn [brand_checks brand_is_valid forallb snd].
  split; [reflexivity|].
  split; [apply Nat.leb_le|].
  split; [apply two_distinct_size|].
  split.
  { rewrite existsb_exists. split.
    - intros (t & Hin & Ht). apply in_map_iff in Hin as (h & Heq & Hh).
      destruct (hosts_of_In sources hosts h H Hh) as (s & Hs & Hsh).
      exists s, (first_level (lower h) credibility_levels).
      split; [assumption|].
      split; [apply check_source_credibility_of_host; assumption|].
      rewrite Heq. destruct t; simpl in Ht; auto; discriminate.
    - intros (s & t & Hs & Hc & Ht).
      destruct (mapM_In _ _ _ s H Hs) as (h & Hh & Hin).
      rewrite (check_source_credibility_of_host _ _ Hh) in Hc.
      injection Hc as Heq.
      exists t. split.
      + apply in_map_iff. exists h. auto.
      + destruct Ht as [-> | ->]; reflexivity. }
  split.
  { rewrite negb_true_iff. split.
    - intros Hex p Hp.
      destruct (contains p brand_name) eqn:E; [|reflexivity].
      rewrite <- Hex. symmetry. apply existsb_exists. eauto.
    - intros Hall. apply not_true_iff_false. intros Hex.
      apply existsb_exists in Hex as (p & Hp & Hc).
      rewrite (Hall p Hp) in Hc. discriminate. }
  split; [rewrite andb_true_r, !andb_assoc; reflexivity|].
  rewrite andb_true_r, !andb_true_iff. tauto.
Qed.

(** C3: a brand result carries the four checks, each as the claim
    describes it, and [is_valid] is their conjunction: it is true exactly
    when every one of them is. *)
Theorem validate_brand_cross_all_checks (brand_name : pystr)
  (sources : list source) (r : brand_result) :
  validate_brand_cross brand_name sources = Ok r ->
  exists hosts c1 c2 c3 c4,
    hosts_of sources = Ok hosts
    /\ brand_checks r
       = [ (py "source_count", c1); (py "independence", c2);
           (py "has_credible_source", c3); (py "not_template", c4) ]
    /\ (c1 = true <-> (2 <= length sources)%nat)
    /\ (c2 = true <-> two_distinct hosts)
    /\ (c3 = true <->
        exists s t, In s sources
          /\ check_source_credibility (url_of s) = Ok t
          /\ (t = A \/ t = B))
    /\ (c4 = true <->
        forall p, In p forbidden_patterns -> contains p brand_name = false)
    /\ brand_is_valid r = c1 && c2 && c3 && c4
    /\ (brand_is_valid r = true
        <-> c1 = true /\ c2 = true /\ c3 = true /\ c4 = true).
Proof.
  intros H.
  assert (Hhosts : exists hosts, hosts_of sources = Ok hosts).
  { unfold validate_brand_cross in H.
    apply bind_ok in H as (i & Hi & _).
    unfold check_source_independence in Hi.
    apply bind_ok in Hi as (hosts & Hh & _). exists hosts. exact Hh. }
  destruct Hhosts as (hosts & Hh).
  destruct (validate_brand_cross_of_hosts brand_name sources hosts Hh)
    as (r' & c1 & c2 & c3 & c4 & Hr' & Hrest).
  rewrite Hr' in H. injection H as <-.
  exists hosts, c1, c2, c3, c4. split; [exact Hh | exact Hrest].
Qed.

(** Without sources a brand is invalid. *)
Lemma validate_brand_cross_no_sources (brand_name : pystr) :
  exists r, validate_brand_cross brand_name [] = Ok r
            /\ brand_is_valid r = false.
Proof. eexists. split; reflexivity. Qed.

(** An empty or absent source URL is no government source. *)
Lemma is_gov_source_empty (source_url : pyval) :
  truthy source_url = false -> is_gov_source source_url = Ok false.
Proof. intros H. unfold is_gov_source. rewrite H. reflexivity. Qed.

(** C4: a policy is valid exactly when it has a document number or its
    [is_gov_source] check holds; the two other checks play no part, and
    without a document number and a source URL it is invalid. *)
Theorem validate_policy_cross_doc_or_gov (policy_data : pydict)
  (r : policy_result) :
  validate_policy_cross policy_data = Ok r ->
  exists c1 c2 c3 c4,
    policy_checks r
    = [ (py "has_doc_number", c1); (py "has_source_url", c2);
        (py "is_gov_source", c3); (py "not_template", c4) ]
    /\ c1 = truthy (get (py "doc_number") (VStr []) policy_data)
    /\ c2 = truthy (get (py "source_url") (VStr []) policy_data)
    /\ policy_is_valid r = c1 || c3
    /\ (policy_is_valid r = true <-> c1 = true \/ c3 = true)
    /\ (c1 = false -> c2 = false -> policy_is_valid r = false).
Proof.
  unfold validate_policy_cross. intros H.
  apply bind_ok in H as (t40 & _ & H).
  apply bind_ok in H as (gov & Hgov & H).
  apply bind_ok in H as (all2 & _ & H).
  injection H as <-. cbn [policy_checks policy_is_valid].
  do 4 eexists. split; [reflexivity|].
  split; [reflexivity|]. split; [reflexivity|]. split; [reflexivity|].
  split; [apply orb_true_iff|].
  intros -> Hurl. unfold is_gov_source in Hgov. rewrite Hurl in Hgov.
  injection Hgov as <-. reflexivity.
Qed.

(** A policy whose title and source URL are strings, or absent, always
    gets a result. *)
Lemma validate_policy_cross_returns (policy_data : pydict) :
  (exists s, get (py "title") (VStr []) policy_data = VStr s) ->
  (exists s, get (py "source_url") (VStr []) policy_data = VStr s) ->
  exists r, validate_policy_cross policy_data = Ok r.
Proof.
  intros (t & Ht) (u & Hu). unfold validate_policy_cross, is_gov_source.
  rewrite Ht, Hu. cbn [slice_to bind].
  destruct (truthy (VStr u)); cbn [bind all_in firstn py_in];
    destruct (contains _ t); cbn [bind]; try (eexists; reflexivity);
    destruct (contains _ t); eexists; reflexivity.
Qed.

End Validator.

(** C6, the claim as stated fails: [urlparse] raises on an authority with an
    unmatched bracket, and so does the classifier. *)
Lemma check_source_credibility_can_raise :
  @check_source_credibility reference_runtime (py "http://[")
  = Raise (ValueError (py "Invalid IPv6 URL"))
  /\ ~ (exists t, @check_source_credibility reference_runtime (py "http://[")
                  = Ok t).
Proof.
  split; [evaluate|]. intros (t & Ht). vm_compute in Ht. discriminate.
Qed.

(** C7, the claim as stated fails: a URL that [urlparse] rejects does not
    count as an empty host, the checker raises. *)
Lemma check_source_independence_can_raise :
  @check_source_independence reference_runtime [with_url "http://["]
  = Raise (ValueError (py "Invalid IPv6 URL"))
  /\ ~ (exists r, @check_source_independence reference_runtime
                    [with_url "http://["] = Ok r).
Proof.
  split; [evaluate|]. intros (r & Hr). vm_compute in Hr. discriminate.
Qed.

Lemma check_source_credibility_first_match_witness :
  exists t,
    @check_source_credibility reference_runtime
      (py "HTTPS://WWW.GOV.CN/zhengce") = Ok t
    /\ t = A.
Proof.
  assert (Hhost : @urlparse_netloc reference_runtime
                    (py "HTTPS://WWW.GOV.CN/zhengce") = Ok (py "WWW.GOV.CN"))
    by evaluate.
  destruct (@check_source_credibility_first_match reference_runtime
              (py "HTTPS://WWW.GOV.CN/zhengce") (py "WWW.GOV.CN") Hhost)
    as (t & Ht & HA & _).
  exists t. split; [exact Ht|]. apply HA.
  exists [py "tmall.com"; py "jd.com"; py "gov.cn"], (py "gov.cn").
  split; [left; reflexivity|]. split; [right; right; left; reflexivity|].
  evaluate.
Defined.

Lemma check_source_independence_distinct_hosts_witness :
  exists r,
    @check_source_independence reference_runtime gugong_sources = Ok r
    /\ is_independent r = true /\ total_sources r = 2%nat.
Proof.
  assert (Hhosts : @hosts_of reference_runtime gugong_sources
                   = Ok [py "gugong.tmall.com"; py "www.dpm.org.cn"])
    by evaluate.
  destruct (@check_source_independence_distinct_hosts reference_runtime
              gugong_sources [py "gugong.tmall.com"; py "www.dpm.org.cn"]
              Hhosts)
    as (r & Hr & Hind & _ & _ & _ & _ & Htot & _).
  exists r. split; [exact Hr|]. split; [|exact Htot].
  apply Hind. exists (py "gugong.tmall.com"), (py "www.dpm.org.cn").
  split; [left; reflexivity|]. split; [right; left; reflexivity|].
  vm_compute. discriminate.
Defined.

Lemma validate_brand_cross_all_checks_witness :
  exists r,
    @validate_brand_cross reference_runtime (py "故宫淘宝") gugong_sources
    = Ok r
    /\ (brand_is_valid r = true
        <-> forallb snd (brand_checks r) = true).
Proof.
  assert (Hhosts : @hosts_of reference_runtime gugong_sources
                   = Ok [py "gugong.tmall.com"; py "www.dpm.org.cn"])
    by evaluate.
  destruct (@validate_brand_cross_of_hosts reference_runtime
              (py "故宫淘宝") gugong_sources
              [py "gugong.tmall.com"; py "www.dpm.org.cn"] Hhosts)
    as (r & _ & _ & _ & _ & Hr & _).
  exists r. split; [exact Hr|].
  destruct (@validate_brand_cross_all_checks reference_runtime
              (py "故宫淘宝") gugong_sources r Hr)
    as (hosts & c1 & c2 & c3 & c4 & _ & Hchecks & _ & _ & _ & _ & Hv & _).
  rewrite Hv, Hchecks. cbn [forallb snd].
  rewrite andb_true_r, !andb_assoc. tauto.
Defined.

Lemma validate_policy_cross_doc_or_gov_witness :
  exists r,
    @validate_policy_cross reference_runtime numbered_policy = Ok r
    /\ policy_is_valid r = true.
Proof.
  destruct (@validate_policy_cross_returns reference_runtime numbered_policy)
    as (r & Hr); [eexists; evaluate | eexists; evaluate |].
  exists r. split; [exact Hr|].
  destruct (@validate_policy_cross_doc_or_gov reference_runtime
              numbered_policy r Hr)
    as (c1 & c2 & c3 & c4 & _ & Hc1 & _ & Hv & _).
  rewrite Hv, Hc1. evaluate.
Defined.

(** C2, the input on which the code departs from the claim: the host of the
    URL is [example.com], which has no [gov.cn] in it, and [is_gov_source]
    is true none the less, because the whole URL is searched. *)
Theorem is_gov_source_searches_whole_url :
  urlsplit_netloc (py "https://example.com/gov.cn") = Ok (py "example.com")
  /\ contains (py "gov.cn") (ascii_lower (py "example.com")) = false
  /\ @is_gov_source reference_runtime
       (VStr (py "https://example.com/gov.cn")) = Ok true
  /\ exists r,
       @validate_policy_cross reference_runtime path_gov_policy = Ok r
       /\ check (py "is_gov_source") (policy_checks r) = Some true
       /\ policy_is_valid r = true.
Proof.
  split; [evaluate|]. split; [evaluate|]. split; [evaluate|].
  eexists. split; [evaluate|]. split; evaluate.
Qed.

End CrossValidatorProofs.

(** ** The verification middleware *)

Module MiddlewareProofs.
Import Middleware.

Lemma mem_cp_In (c : N) (s : pystr) : mem_cp c s = true <-> In c s.
Proof.
  unfold mem_cp. rewrite existsb_exists. split.
  - intros (x & Hx & Heq). apply N.eqb_eq in Heq. subst. exact Hx.
  - intros H. exists c. split; [exact H | apply N.eqb_refl].
Qed.

Lemma startswith_app_sep (p s t : pystr) (c : N) :
  mem_cp c p = false -> startswith p (s ++ c :: t) = startswith p s.
Proof.
  revert s. induction p as [|a p IH]; intros s Hc; [reflexivity|].
  simpl in Hc. apply orb_false_iff in Hc as [Hac Hp].
  destruct s as [|x s]; simpl.
  - rewrite N.eqb_sym, Hac. reflexivity.
  - rewrite (IH s Hp). reflexivity.
Qed.

(** A word without the character [c] occurs in [s ++ c :: t] exactly when it
    occurs in [s] or in [t]. *)
Lemma contains_app_sep (p s t : pystr) (c : N) :
  mem_cp c p = false ->
  contains p (s ++ c :: t) = contains p s || contains p t.
Proof.
  intros Hc. induction s as [|x s IH].
  - cbn [app]. cbn [contains].
    destruct p as [|a p]; [reflexivity|].
    simpl in Hc. apply orb_false_iff in Hc as [Hac _].
    simpl. rewrite N.eqb_sym, Hac. reflexivity.
  - cbn [app contains]. rewrite IH.
    change (x :: s ++ c :: t) with ((x :: s) ++ c :: t).
    rewrite (startswith_app_sep p (x :: s) t c Hc).
    rewrite orb_assoc. reflexivity.
Qed.

Lemma startswith_In (p s : pystr) (c : N) :
  startswith p s = true -> In c p -> In c s.
Proof.
  revert s. induction p as [|a p IH]; intros s H Hin; [destruct Hin|].
  destruct s as [|x s]; [discriminate|]. simpl in H.
  apply andb_true_iff in H as [Hax Hps]. apply N.eqb_eq in Hax. subst x.
  destruct Hin as [->|Hin]; [now left | right; eauto].
Qed.

Lemma contains_In (p s : pystr) (c : N) :
  contains p s = true -> In c p -> In c s.
Proof.
  induction s as [|x s IH]; simpl; intros H Hin.
  - rewrite orb_false_r in H. exact (startswith_In p [] c H Hin).
  - apply orb_true_iff in H as [H|H].
    + exact (startswith_In p (x :: s) c H Hin).
    + right. auto.
Qed.

(** A word with a character that [s] lacks does not occur in [s]. *)
Lemma contains_other_alphabet (f : N -> bool) (p s : pystr) :
  forallb f s = true -> existsb (fun c => negb (f c)) p = true ->
  contains p s = false.
Proof.
  intros Hs Hp. apply existsb_exists in Hp as (c & Hc & Hfc).
  destruct (contains p s) eqn:E; [|reflexivity].
  pose proof (contains_In p s c E Hc) as Hin.
  rewrite forallb_forall in Hs. rewrite (Hs c Hin) in Hfc. discriminate.
Qed.

Lemma uint_str_digits (u : Decimal.uint) :
  forallb is_iso_char (uint_str u) = true.
Proof. induction u; simpl; auto. Qed.

Lemma zfill_iso (w : nat) (s : pystr) :
  forallb is_iso_char s = true -> forallb is_iso_char (zfill w s) = true.
Proof.
  intros H. unfold zfill. rewrite forallb_app, H, andb_true_r.
  induction (w - length s)%nat; simpl; auto.
Qed.

Lemma isoformat_chars (now : datetime) :
  forallb is_iso_char (isoformat now) = true.
Proof.
  unfold isoformat, nat_str.
  repeat (rewrite forallb_app; apply andb_true_intro; split);
    try (apply zfill_iso, uint_str_digits); try reflexivity.
  destruct (N.eqb _ _); [reflexivity|].
  rewrite forallb_app. apply andb_true_intro. split; [reflexivity|].
  apply zfill_iso, uint_str_digits.
Qed.

Lemma json_escape_iso (s : pystr) :
  forallb is_iso_char s = true -> flat_map json_escape_cp s = s.
Proof.
  induction s as [|c s IH]; simpl; intros H; [reflexivity|].
  apply andb_true_iff in H as [Hc Hs]. rewrite (IH Hs).
  assert (E : json_escape_cp c = [c]).
  { unfold json_escape_cp, is_iso_char in *.
    repeat match goal with
    | |- context [N.eqb c ?k] =>
      destruct (N.eqb_spec c k); [subst c; vm_compute in Hc; discriminate|]
    end.
    destruct (N.ltb_spec c 32); [|reflexivity].
    exfalso. revert Hc.
    rewrite !orb_true_iff, andb_true_iff, !N.leb_le, !N.eqb_eq. lia. }
  rewrite E. reflexivity.
Qed.

Lemma str_eqb_eq (a b : pystr) : str_eqb a b = true <-> a = b.
Proof. unfold str_eqb. destruct (decide (a = b)); split; congruence. Qed.

Lemma str_eqb_neq (a b : pystr) : a <> b -> str_eqb a b = false.
Proof. unfold str_eqb. intros H. destruct (decide (a = b)); congruence. Qed.

Lemma lookup_set_item_ne (k key : pystr) (m : pyval) (d : pydict) :
  k <> key -> lookup_key k (set_item key m d) = lookup_key k d.
Proof.
  intros Hne. induction d as [|[k' v'] d IH]; simpl.
  - rewrite (str_eqb_neq k key Hne). reflexivity.
  - destruct (str_eqb key k') eqn:E; simpl.
    + apply str_eqb_eq in E. subst k'. rewrite (str_eqb_neq k key Hne).
      reflexivity.
    + destruct (str_eqb k k'); [reflexivity | exact IH].
Qed.

Lemma lookup_set_item_eq (key : pystr) (m : pyval) (d : pydict) :
  lookup_key key (set_item key m d) = Some m.
Proof.
  induction d as [|[k' v'] d IH]; simpl.
  - unfold str_eqb. destruct (decide (key = key)); congruence.
  - destruct (str_eqb key k') eqn:E; simpl; rewrite E; [reflexivity | exact IH].
Qed.

Lemma get_set_item_ne (k key : pystr) (m dflt : pyval) (d : pydict) :
  k <> key -> get k dflt (set_item key m d) = get k dflt d.
Proof. intros H. unfold get. rewrite (lookup_set_item_ne k key m d H). reflexivity. Qed.

Lemma has_key_set_item_ne (k key : pystr) (m : pyval) (d : pydict) :
  k <> key -> has_key k (set_item key m d) = has_key k d.
Proof. intros H. unfold has_key. rewrite (lookup_set_item_ne k key m d H). reflexivity. Qed.

(** A new key goes last. *)
Lemma set_item_new (key : pystr) (m : pyval) (d : pydict) :
  has_key key d = false -> set_item key m d = d ++ [(key, m)].
Proof.
  unfold has_key. induction d as [|[k' v'] d IH]; simpl; [reflexivity|].
  destruct (str_eqb key k'); [discriminate|]. intros H. rewrite (IH H).
  reflexivity.
Qed.

Lemma join_snoc (sep x : pystr) (l : list pystr) :
  join sep (l ++ [x])
  = match l with [] => x | _ :: _ => join sep l ++ sep ++ x end.
Proof.
  induction l as [|a l IH]; [reflexivity|].
  destruct l as [|b l]; [reflexivity|].
  change (join sep ((a :: b :: l) ++ [x]))
    with (a ++ sep ++ join sep ((b :: l) ++ [x])).
  rewrite IH. change (join sep (a :: b :: l)) with (a ++ sep ++ join sep (b :: l)).
  rewrite <- !app_assoc. reflexivity.
Qed.

(** The text of the mark of an accepted record. *)
Lemma mark_text (l : level) (now : datetime) :
  json_string mark_key ++ py ": " ++ json_dumps (verified_mark l now)
  = mark_prefix l ++ 34%N :: isoformat now ++ 34%N :: [125%N].
Proof.
  unfold verified_mark, mark_prefix.
  cbn [json_dumps map join].
  change (json_string (isoformat now))
    with ([34%N] ++ flat_map json_escape_cp (isoformat now) ++ [34%N]).
  rewrite (json_escape_iso _ (isoformat_chars now)).
  generalize (isoformat now), (json_string (level_str l)),
    (json_string mark_key), (json_string (py "status")),
    (json_string (py "VERIFIED")), (json_string (py "level")),
    (json_string (py "timestamp")).
  intros ts ls k0 k1 v1 k2 k3.
  change (py ": {") with (py ": " ++ [123%N]).
  generalize (py ": "), (py ", "). intros colon comma.
  repeat (rewrite <- app_assoc || cbn [app]).
  reflexivity.
Qed.

Lemma json_dumps_dict (d : pydict) :
  json_dumps (VDict d)
  = [123%N] ++ join (py ", ") (map dict_item d) ++ [125%N].
Proof.
  cbn [json_dumps]. do 3 f_equal. apply map_ext. intros [k x]. reflexivity.
Qed.

Lemma contains_nil (p : pystr) : p <> [] -> contains p [] = false.
Proof. destruct p; [congruence | reflexivity]. Qed.

Lemma foreign_parts (p : pystr) :
  foreign_to_mark p = true ->
  mem_cp 123 p = false /\ mem_cp 125 p = false /\ mem_cp 44 p = false
  /\ mem_cp 32 p = false /\ mem_cp 34 p = false
  /\ existsb (fun c => negb (is_iso_char c)) p = true
  /\ (forall l, contains p (mark_prefix l) = false)
  /\ p <> [].
Proof.
  unfold foreign_to_mark. rewrite !andb_true_iff, !negb_true_iff.
  intros ((((((H1 & H2) & H3) & H4) & H5) & H6) & H7).
  repeat (split; [assumption|]). split.
  - intros l. rewrite forallb_forall in H7. apply negb_true_iff, H7.
    destruct l; simpl; auto.
  - intros ->. discriminate.
Qed.

(** A word foreign to the mark does not occur in the text of the mark. *)
Lemma mark_text_free (p : pystr) (l : level) (now : datetime) :
  foreign_to_mark p = true ->
  contains p
    ((json_string mark_key ++ py ": " ++ json_dumps (verified_mark l now))
     ++ [125%N]) = false.
Proof.
  intros H.
  destruct (foreign_parts p H) as (_ & H125 & _ & _ & H34 & Hiso & Hpre & Hne).
  rewrite mark_text, <- app_assoc. cbn [app].
  rewrite (contains_app_sep p _ _ 34%N H34), (Hpre l). cbn [orb].
  rewrite <- app_assoc. cbn [app].
  rewrite (contains_app_sep p _ _ 34%N H34).
  rewrite (contains_other_alphabet is_iso_char p _ (isoformat_chars now) Hiso).
  change [125%N; 125%N] with ([] ++ 125%N :: ([] ++ 125%N :: [])).
  rewrite !(contains_app_sep p _ _ 125%N H125), (contains_nil p Hne).
  reflexivity.
Qed.

(** Storing the mark of an accepted record under a new key leaves the
    occurrences of a foreign word in the printed record as they were. *)
Lemma dumps_mark_contains (p : pystr) (l : level) (now : datetime)
  (d : pydict) :
  foreign_to_mark p = true -> has_key mark_key d = false ->
  contains p (json_dumps (VDict (set_item mark_key (verified_mark l now) d)))
  = contains p (json_dumps (VDict d)).
Proof.
  intros H Hnew.
  destruct (foreign_parts p H) as (H123 & H125 & H44 & H32 & _ & _ & _ & Hne).
  pose proof (mark_text_free p l now H) as Hfree.
  rewrite (set_item_new _ _ _ Hnew), !json_dumps_dict, map_app. cbn [map].
  rewrite join_snoc.
  change (dict_item (mark_key, verified_mark l now))
    with (json_string mark_key ++ py ": " ++ json_dumps (verified_mark l now)).
  set (X := json_string mark_key ++ py ": " ++ json_dumps (verified_mark l now))
    in *.
  destruct (map dict_item d) as [|i0 items].
  - change ([123%N] ++ X ++ [125%N]) with ([] ++ 123%N :: (X ++ [125%N])).
    change ([123%N] ++ join (py ", ") [] ++ [125%N])
      with ([] ++ 123%N :: ([] ++ 125%N :: [])).
    rewrite !(contains_app_sep p _ _ 123%N H123), Hfree,
      (contains_app_sep p _ _ 125%N H125), (contains_nil p Hne).
    reflexivity.
  - set (J := join (py ", ") (i0 :: items)).
    change (py ", ") with [44%N; 32%N].
    replace ([123%N] ++ (J ++ [44%N; 32%N] ++ X) ++ [125%N])
      with (([123%N] ++ J) ++ 44%N :: ([] ++ 32%N :: (X ++ [125%N]))).
    2:{ cbn [app]. rewrite <- !app_assoc. reflexivity. }
    replace ([123%N] ++ J ++ [125%N]) with (([123%N] ++ J) ++ 125%N :: []).
    2:{ rewrite <- app_assoc. reflexivity. }
    rewrite (contains_app_sep p _ _ 44%N H44),
      (contains_app_sep p _ _ 32%N H32), Hfree,
      (contains_app_sep p _ _ 125%N H125), (contains_nil p Hne).
    rewrite !orb_false_r. reflexivity.
Qed.

Lemma vague_words_foreign :
  forallb foreign_to_mark vague_words = true.
Proof. vm_compute. reflexivity. Qed.

Lemma source_markers_foreign :
  foreign_to_mark (py "来源") = true /\ foreign_to_mark (py "source") = true.
Proof. split; vm_compute; reflexivity. Qed.

Lemma scan_vague_ext (s1 s2 : pystr) :
  (forall w, In w vague_words -> contains w s1 = contains w s2) ->
  scan_vague s1 = scan_vague s2.
Proof.
  intros H. unfold scan_vague. f_equal. apply filter_ext_in. exact H.
Qed.

Lemma scan_kpi_ext (s1 s2 : pystr) (kpi : pydict) :
  contains (py "来源") s1 = contains (py "来源") s2 ->
  contains (py "source") s1 = contains (py "source") s2 ->
  scan_kpi s1 kpi = scan_kpi s2 kpi.
Proof. unfold scan_kpi. intros -> ->. reflexivity. Qed.

Ltac other_key := vm_compute; discriminate.

(** The checks read the record through keys other than the mark's, and
    through words foreign to the mark: an accepted record with its mark
    attached is verified as the record itself. *)
Lemma verify_data_marked (l : level) (now : datetime)
  (d : pydict) :
  has_key mark_key d = false ->
  verify_data (set_item mark_key (verified_mark l now) d) = verify_data d.
Proof.
  intros Hnew.
  assert (Hstr : forall p, foreign_to_mark p = true ->
    contains p (json_dumps (VDict (set_item mark_key (verified_mark l now) d)))
    = contains p (json_dumps (VDict d))).
  { intros p Hp. apply dumps_mark_contains; assumption. }
  assert (Hv : scan_vague
                 (json_dumps (VDict (set_item mark_key (verified_mark l now) d)))
               = scan_vague (json_dumps (VDict d))).
  { apply scan_vague_ext. intros w Hw. apply Hstr.
    pose proof vague_words_foreign as Hall. rewrite forallb_forall in Hall.
    auto. }
  assert (Hk : forall kpi,
    scan_kpi (json_dumps (VDict (set_item mark_key (verified_mark l now) d))) kpi
    = scan_kpi (json_dumps (VDict d)) kpi).
  { intros kpi. apply scan_kpi_ext; apply Hstr; apply source_markers_foreign. }
  assert (Hreq :
    List.filter
      (fun field =>
         negb (truthy (get field VNone
                         (set_item mark_key (verified_mark l now) d))))
      required
    = List.filter (fun field => negb (truthy (get field VNone d))) required).
  { apply filter_ext_in. intros field Hf.
    rewrite (get_set_item_ne field mark_key); [reflexivity|].
    destruct Hf as [<-|[<-|[<-|[]]]]; other_key. }
  unfold verify_data, _check_hallucination, _check_required_fields,
    _check_sources, get_none.
  cbv zeta.
  rewrite Hv, Hreq.
  rewrite !(get_set_item_ne _ mark_key) by other_key.
  rewrite !(has_key_set_item_ne _ mark_key) by other_key.
  rewrite !(lookup_set_item_ne _ mark_key) by other_key.
  destruct (lookup_key (py "kpi") d) as [[]|]; try reflexivity.
  rewrite Hk. reflexivity.
Qed.

Lemma make_verdict_level (es ws : list pystr) :
  let v := make_verdict es ws in
  errors v = es /\ warnings v = ws
  /\ (v_level v = A <-> es = [] /\ ws = [])
  /\ (v_level v = CONDITIONAL <-> es = [] /\ ws <> [])
  /\ (v_level v = REJECTED <-> es <> [])
  /\ (passed v = true <-> es = []).
Proof.
  destruct es as [|e es], ws as [|w ws]; cbn;
    repeat split; intros; try discriminate; try tauto;
    try (intuition discriminate); try congruence.
Qed.

(** Every verdict of [verify_data] is built by lines 74 to 87. *)
Lemma verify_data_made (d : pydict) (v : verdict) :
  verify_data d = Ok v -> make_verdict (errors v) (warnings v) = v.
Proof.
  unfold verify_data. intros H.
  apply bind_ok in H as (h & _ & H).
  apply bind_ok in H as (f & _ & H).
  apply bind_ok in H as (s & _ & H).
  injection H as <-. reflexivity.
Qed.

(** C1: the level of a verdict is a function of its two lists, and the
    verdict passes exactly when it has no error. *)
Theorem verify_data_level (d : pydict) (v : verdict) :
  verify_data d = Ok v ->
  (v_level v = A <-> errors v = [] /\ warnings v = [])
  /\ (v_level v = CONDITIONAL <-> errors v = [] /\ warnings v <> [])
  /\ (v_level v = REJECTED <-> errors v <> [])
  /\ (passed v = true <-> errors v = []).
Proof.
  intros H. apply verify_data_made in H.
  pose proof (make_verdict_level (errors v) (warnings v)) as Hl.
  cbv zeta in Hl. rewrite H in Hl. tauto.
Qed.

(** A result that is not a dict goes through the wrapper as it is. *)
Lemma validate_required_not_dict (strict_mode : bool) (now : datetime)
  (x : pyval) :
  (forall d, x <> VDict d) -> validate_required strict_mode now x = Ok x.
Proof. intros H. destruct x; try reflexivity. destruct (H d eq_refl). Qed.

(** C5, as the code has it: when [verify_data] returns a verdict, the
    permissive call returns; when the verdict has errors, the strict call
    raises [ValueError] with the error list and the first 200 characters of
    the printed record, and the permissive call returns the record with the
    pending mark: status, errors and timestamp. *)
Theorem validate_required_rejected (now : datetime)
  (d : pydict) (v : verdict) :
  verify_data d = Ok v ->
  (exists r, validate_required false now (VDict d) = Ok r)
  /\ (errors v <> [] ->
      v_level v = REJECTED
      /\ validate_required true now (VDict d)
         = Raise (ValueError (failure_message (errors v) d))
      /\ require_verification now (VDict d)
         = Raise (ValueError (failure_message (errors v) d))
      /\ (exists preview,
            failure_message (errors v) d
            = py "数据验证失败: " ++ repr_list (errors v) ++ [10%N]
              ++ py "数据: " ++ preview
            /\ preview = firstn 200 (json_dumps (VDict d))
            /\ (length preview <= 200)%nat)
      /\ validate_required false now (VDict d)
         = Ok (VDict (set_item mark_key
                 (VDict [ (py "status", VStr (py "PENDING"));
                          (py "errors", VList (map VStr (errors v)));
                          (py "timestamp", VStr (isoformat now)) ]) d))).
Proof.
  intros H.
  destruct (verify_data_level d v H) as (_ & _ & Hrej & Hpass).
  split.
  { unfold validate_required. rewrite H. cbn [bind].
    destruct (negb (passed v)); eexists; reflexivity. }
  intros Herr.
  assert (Hp : passed v = false).
  { destruct (passed v); [|reflexivity]. destruct Herr. apply Hpass.
    reflexivity. }
  split; [apply Hrej; exact Herr|].
  unfold require_verification, validate_required. rewrite H. cbn [bind].
  rewrite Hp. cbn [negb].
  split; [reflexivity|]. split; [reflexivity|].
  split; [|reflexivity].
  eexists. split; [reflexivity|]. split; [reflexivity|].
  apply firstn_le_length.
Qed.

(** C8, as the code has it: the wrapper stores its mark under
    ['_verification'] and leaves every other key with its value. *)
Theorem validate_required_keeps_fields (strict_mode : bool) (now : datetime)
  (d : pydict) (r : pyval) :
  validate_required strict_mode now (VDict d) = Ok r ->
  exists v m,
    verify_data d = Ok v
    /\ (m = verified_mark (v_level v) now \/ m = pending_mark (errors v) now)
    /\ r = VDict (set_item mark_key m d)
    /\ lookup_key mark_key (set_item mark_key m d) = Some m
    /\ (forall k, k <> mark_key ->
          lookup_key k (set_item mark_key m d) = lookup_key k d).
Proof.
  unfold validate_required. intros H.
  apply bind_ok in H as (v & Hv & H).
  exists v.
  destruct (negb (passed v)); [destruct strict_mode; [discriminate|]|];
    injection H as <-;
    [exists (pending_mark (errors v) now)
    |exists (verified_mark (v_level v) now)];
    (split; [exact Hv|]); (split; [auto|]); (split; [reflexivity|]);
    (split; [apply lookup_set_item_eq|]);
    intros k Hk; apply lookup_set_item_ne; exact Hk.
Qed.

(** C9, as the code has it: an accepted record without a ['_verification']
    field of its own is returned with its mark, and verifying the marked
    record gives the verdict of the record. *)
Theorem verify_data_marked_again (strict_mode : bool) (now : datetime)
  (d : pydict) (v : verdict) :
  has_key mark_key d = false ->
  verify_data d = Ok v ->
  passed v = true ->
  exists d',
    validate_required strict_mode now (VDict d) = Ok (VDict d')
    /\ lookup_key mark_key d' = Some (verified_mark (v_level v) now)
    /\ (forall k, k <> mark_key -> lookup_key k d' = lookup_key k d)
    /\ verify_data d' = Ok v.
Proof.
  intros Hnew Hv Hp.
  exists (set_item mark_key (verified_mark (v_level v) now) d).
  split.
  { unfold validate_required. rewrite Hv. cbn [bind]. rewrite Hp.
    reflexivity. }
  split; [apply lookup_set_item_eq|].
  split; [intros k Hk; apply lookup_set_item_ne; exact Hk|].
  rewrite (verify_data_marked _ _ _ Hnew). exact Hv.
Qed.

(** C10: without a ['name'] and a ['title'] key only the hallucination and
    the source checks make the verdict, which has no missing-field error,
    while [_check_required_fields] on a record with a category reports every
    required field that is missing or empty, ['name'] among them. *)
Theorem verify_data_skips_required_fields (d : pydict) :
  has_key (py "name") d = false ->
  has_key (py "title") d = false ->
  verify_data d
  = (h <- _check_hallucination d ;;
     s <- _check_sources d ;;
     Ok (make_verdict (f_errors h ++ f_errors s)
           (f_warnings h ++ f_warnings s)))
  /\ (forall v, verify_data d = Ok v ->
        forall field, ~ In (missing_field_error field) (errors v))
  /\ (has_key (py "category") d = true ->
      exists f,
        _check_required_fields d = Ok f
        /\ f_errors f
           = map missing_field_error
               (List.filter (fun field => negb (truthy (get_none field d)))
                  required)
        /\ In (missing_field_error (py "name")) (f_errors f)).
Proof.
  intros Hname Htitle.
  assert (Heq : verify_data d
    = (h <- _check_hallucination d ;;
       s <- _check_sources d ;;
       Ok (make_verdict (f_errors h ++ f_errors s)
             (f_warnings h ++ f_warnings s)))).
  { unfold verify_data. rewrite Hname, Htitle. reflexivity. }
  split; [exact Heq|]. split.
  - intros v Hv field Hin. rewrite Heq in Hv.
    apply bind_ok in Hv as (h & Hh & Hv).
    apply bind_ok in Hv as (s & Hs & Hv).
    injection Hv as <-. cbn [errors make_verdict] in Hin.
    assert (Hhe : f_errors h = []).
    { unfold _check_hallucination, get in Hh. unfold has_key in Hname, Htitle.
      destruct (lookup_key (py "name") d); [discriminate|].
      destruct (lookup_key (py "title") d); [discriminate|].
      cbn [bind] in Hh.
      change (scan_templates template_patterns (VStr [])) with
        (@Ok (list (list N)) []) in Hh.
      cbn [bind] in Hh. injection Hh as <-. reflexivity. }
    rewrite Hhe in Hin. cbn [app] in Hin.
    unfold _check_sources in Hs.
    apply bind_ok in Hs as (es & Hes & Hs). injection Hs as <-.
    cbn [f_errors] in Hin.
    assert (Hes' : es = [] \/ es = [url_format_error]).
    { destruct (truthy _); [|injection Hes as <-; auto].
      destruct (get (py "source_url") (VStr []) d); try discriminate.
      injection Hes as <-. destruct (_ || _); auto. }
    destruct Hes' as [-> | ->]; [destruct Hin|].
    destruct Hin as [Hin|[]]. vm_compute in Hin. discriminate.
  - intros Hcat. unfold _check_required_fields.
    rewrite Hcat, Htitle. cbn [bind andb]. eexists. split; [reflexivity|].
    cbn [f_errors]. rewrite app_nil_r. split; [reflexivity|].
    apply in_map. apply filter_In. split; [simpl; auto|].
    unfold get_none, get. unfold has_key in Hname.
    destruct (lookup_key (py "name") d); [discriminate | reflexivity].
Qed.

(** C5, the claim as stated fails: the permissive call fails on a record
    whose name is [None], on which [pattern in name] raises [TypeError]. *)
Lemma permissive_call_can_fail :
  validate_required false sample_now (VDict null_name_record)
  = Raise TypeError.
Proof. evaluate. Qed.

(** C8, the claim as stated fails: a ['_verification'] field of the record
    is overwritten by the mark. *)
Lemma validate_required_overwrites_mark_key :
  lookup_key mark_key draft_record = Some (VStr (py "draft"))
  /\ exists d',
       validate_required true sample_now (VDict draft_record) = Ok (VDict d')
       /\ lookup_key mark_key d' = Some (verified_mark A sample_now)
       /\ lookup_key mark_key d' <> lookup_key mark_key draft_record.
Proof.
  split; [evaluate|]. eexists. split; [evaluate|].
  split; [evaluate|]. vm_compute. discriminate.
Qed.

(** C9, the claim as stated fails: the stale record passes with level A,
    since the text of its old mark holds the source marker that its KPI
    lacks; the new mark replaces the old one, and the marked record gets a
    warning and the level CONDITIONAL. *)
Lemma verify_data_marked_again_differs :
  exists v d' v',
    verify_data stale_record = Ok v
    /\ passed v = true /\ v_level v = A
    /\ validate_required true sample_now (VDict stale_record) = Ok (VDict d')
    /\ (forall k, k <> mark_key ->
          lookup_key k d' = lookup_key k stale_record)
    /\ verify_data d' = Ok v'
    /\ v_level v' = CONDITIONAL
    /\ warnings v' = [kpi_warning (py "revenue")]
    /\ v' <> v.
Proof.
  exists (make_verdict [] []),
    (set_item mark_key (verified_mark A sample_now) stale_record),
    (make_verdict [] [kpi_warning (py "revenue")]).
  split; [evaluate|]. split; [evaluate|]. split; [evaluate|].
  split; [evaluate|].
  split; [intros k Hk; apply lookup_set_item_ne; exact Hk|].
  split; [evaluate|]. split; [evaluate|]. split; [evaluate|].
  vm_compute. discriminate.
Qed.

Lemma verify_data_level_witness :
  exists v,
    verify_data popmart_record = Ok v
    /\ v_level v = CONDITIONAL /\ passed v = true.
Proof.
  exists (make_verdict [] [kpi_warning (py "revenue")]).
  assert (Hv : verify_data popmart_record
               = Ok (make_verdict [] [kpi_warning (py "revenue")]))
    by evaluate.
  split; [exact Hv|].
  destruct (verify_data_level popmart_record _ Hv) as (_ & HC & _ & HP).
  split; [apply HC | apply HP]; repeat split; discriminate.
Defined.

Lemma validate_required_rejected_witness :
  (exists msg,
     validate_required true sample_now (VDict template_record)
     = Raise (ValueError msg))
  /\ exists r, validate_required false sample_now (VDict template_record)
               = Ok r.
Proof.
  assert (Hv : verify_data template_record
               = Ok (make_verdict [template_error (py "文创品牌")]
                       [no_source_warning]))
    by evaluate.
  destruct (validate_required_rejected sample_now template_record _ Hv)
    as (Hperm & Hrej).
  split; [|exact Hperm].
  destruct Hrej as (_ & Hstrict & _); [discriminate|].
  eexists. exact Hstrict.
Defined.

Lemma validate_required_keeps_fields_witness :
  exists d',
    validate_required true sample_now (VDict gugong_record) = Ok (VDict d')
    /\ lookup_key (py "name") d' = lookup_key (py "name") gugong_record.
Proof.
  assert (Hr : validate_required true sample_now (VDict gugong_record)
               = Ok (VDict (set_item mark_key (verified_mark A sample_now)
                              gugong_record)))
    by evaluate.
  destruct (validate_required_keeps_fields true sample_now gugong_record _
              Hr)
    as (v & m & _ & _ & Hm & _ & Hkeep).
  exists (set_item mark_key m gugong_record).
  split; [rewrite <- Hm; exact Hr|].
  apply Hkeep. vm_compute. discriminate.
Defined.

Lemma verify_data_marked_again_witness :
  exists d',
    validate_required true sample_now (VDict popmart_record) = Ok (VDict d')
    /\ verify_data d' = verify_data popmart_record.
Proof.
  assert (Hnew : has_key mark_key popmart_record = false) by evaluate.
  assert (Hv : verify_data popmart_record
               = Ok (make_verdict [] [kpi_warning (py "revenue")]))
    by evaluate.
  assert (Hp : passed (make_verdict [] [kpi_warning (py "revenue")]) = true)
    by reflexivity.
  destruct (verify_data_marked_again true sample_now popmart_record _
              Hnew Hv Hp)
    as (d' & Hr & _ & _ & Hv').
  exists d'. split; [exact Hr|]. rewrite Hv', Hv. reflexivity.
Defined.

Lemma verify_data_skips_required_fields_witness :
  (forall v, verify_data nameless_record = Ok v ->
     ~ In (missing_field_error (py "name")) (errors v))
  /\ exists f,
       _check_required_fields nameless_record = Ok f
       /\ f_errors f
          = [missing_field_error (py "name");
             missing_field_error (py "region")].
Proof.
  assert (Hname : has_key (py "name") nameless_record = false) by evaluate.
  assert (Htitle : has_key (py "title") nameless_record = false)
    by evaluate.
  assert (Hcat : has_key (py "category") nameless_record = true)
    by evaluate.
  destruct (verify_data_skips_required_fields nameless_record Hname Htitle)
    as (_ & Hno & Hreq).
  split; [intros v Hv; exact (Hno v Hv (py "name"))|].
  destruct (Hreq Hcat) as (f & Hf & Herrs & _).
  exists f. split; [exact Hf|]. rewrite Herrs. evaluate.
Defined.

End MiddlewareProofs.

(** ** More on the cross validator *)

Module CrossValidatorMore.
Import CrossValidator CrossValidatorProofs.

Lemma mapM_app {X Y} (f : X -> result Y) (l1 l2 : list X) :
  mapM f (l1 ++ l2)
  = (ys1 <- mapM f l1 ;; ys2 <- mapM f l2 ;; Ok (ys1 ++ ys2)).
Proof.
  induction l1 as [|x l1 IH]; simpl.
  - destruct (mapM f l2); reflexivity.
  - destruct (f x) as [y|e]; simpl; [|reflexivity].
    rewrite IH. destruct (mapM f l1) as [ys1|e]; simpl; [|reflexivity].
    destruct (mapM f l2); reflexivity.
Qed.


Section Validator.
Context {RT : Runtime}.

Lemma check_source_independence_inv (sources : list source)
  (r : independence) :
  check_source_independence sources = Ok r ->
  exists hosts,
    hosts_of sources = Ok hosts
    /\ r = {| is_independent :=
                (2 <=? size (list_to_set hosts : gset (list N)))%nat;
              unique_domains := elements (list_to_set hosts : gset (list N));
              total_sources := length sources |}.
Proof.
  intros H. unfold check_source_independence in H.
  apply bind_ok in H as (hosts & Hh & H). injection H as <-.
  exists hosts. split; [exact Hh | reflexivity].
Qed.

Lemma validate_brand_cross_inv (brand_name : pystr) (sources : list source)
  (r : brand_result) :
  validate_brand_cross brand_name sources = Ok r ->
  exists hosts, hosts_of sources = Ok hosts.
Proof.
  intros H. unfold validate_brand_cross in H.
  apply bind_ok in H as (i & Hi & _).
  destruct (check_source_independence_inv sources i Hi) as (hosts & Hh & _).
  exists hosts. exact Hh.
Qed.

Lemma hosts_of_app (s1 s2 : list source) (hosts : list pystr) :
  hosts_of (s1 ++ s2) = Ok hosts ->
  exists h1 h2,
    hosts_of s1 = Ok h1 /\ hosts_of s2 = Ok h2 /\ hosts = h1 ++ h2.
Proof.
  unfold hosts_of. rewrite mapM_app. intros H.
  apply bind_ok in H as (h1 & H1 & H).
  apply bind_ok in H as (h2 & H2 & H). injection H as <-.
  exists h1, h2. auto.
Qed.


(** X2: The checker never reports more domains than sources, its domains are
    pairwise different, and independent sources are at least two. *)
Theorem check_source_independence_bounds (sources : list source)
  (r : independence) :
  check_source_independence sources = Ok r ->
  (length (unique_domains r) <= total_sources r)%nat
  /\ List.NoDup (unique_domains r)
  /\ (is_independent r = true -> (2 <= total_sources r)%nat)
  /\ (is_independent r = false -> (length (unique_domains r) <= 1)%nat).
Proof.
  intros H.
  destruct (check_source_independence_inv sources r H) as (hosts & Hh & ->).
  cbn [unique_domains total_sources is_independent].
  pose proof (mapM_length _ _ _ Hh) as Hlen.
  assert (Hnd : List.NoDup (elements (list_to_set hosts : gset (list N))))
    by apply NoDup_ListNoDup, NoDup_elements.
  assert (Hle : (length (elements (list_to_set hosts : gset (list N)))
                 <= length hosts)%nat).
  { apply NoDup_incl_length; [exact Hnd|].
    intros h Hin. apply list_elem_of_In, elem_of_elements in Hin.
    apply elem_of_list_to_set, list_elem_of_In in Hin. exact Hin. }
  assert (Hsz : size (list_to_set hosts : gset (list N))
                = length (elements (list_to_set hosts : gset (list N))))
    by reflexivity.
  split; [lia|]. split; [exact Hnd|]. split.
  - rewrite Nat.leb_le. lia.
  - rewrite Nat.leb_gt. lia.
Qed.

(** X3: More sources never undo independence. *)
Theorem check_source_independence_monotone (s1 s2 : list source)
  (r1 r : independence) :
  check_source_independence s1 = Ok r1 ->
  check_source_independence (s1 ++ s2) = Ok r ->
  is_independent r1 = true -> is_independent r = true.
Proof.
  intros H1 H.
  destruct (check_source_independence_inv s1 r1 H1) as (h1 & Hh1 & ->).
  destruct (check_source_independence_inv _ r H) as (hosts & Hh & ->).
  destruct (hosts_of_app s1 s2 hosts Hh) as (h1' & h2 & Hh1' & _ & ->).
  rewrite Hh1 in Hh1'. injection Hh1' as <-.
  cbn [is_independent]. rewrite !two_distinct_size.
  intros (a & b & Ha & Hb & Hab). exists a, b.
  rewrite !in_app_iff. auto.
Qed.


(** The fields of a brand result, from the hosts of its sources. *)
Lemma validate_brand_cross_fields (brand_name : pystr)
  (sources : list source) (r : brand_result) :
  validate_brand_cross brand_name sources = Ok r ->
  exists hosts,
    hosts_of sources = Ok hosts
    /\ brand r = brand_name
    /\ brand_is_valid r
       = (2 <=? length sources)%nat
         && ((2 <=? size (list_to_set hosts : gset (list N)))%nat
         && (existsb credible
               (map (fun h => first_level (lower h) credibility_levels) hosts)
         && negb (existsb (fun p => contains p brand_name)
                    forbidden_patterns)))
    /\ check (py "source_count") (brand_checks r)
       = Some (2 <=? length sources)%nat
    /\ check (py "independence") (brand_checks r)
       = Some (2 <=? size (list_to_set hosts : gset (list N)))%nat
    /\ check (py "not_template") (brand_checks r)
       = Some (negb (existsb (fun p => contains p brand_name)
                       forbidden_patterns))
    /\ credibility_scores r
       = map (fun h => first_level (lower h) credibility_levels) hosts
    /\ domain_analysis r
       = {| is_independent :=
              (2 <=? size (list_to_set hosts : gset (list N)))%nat;
            unique_domains := elements (list_to_set hosts : gset (list N));
            total_sources := length sources |}.
Proof.
  intros H.
  destruct (validate_brand_cross_inv brand_name sources r H) as (hosts & Hh).
  exists hosts. split; [exact Hh|].
  unfold validate_brand_cross in H.
  rewrite (check_source_independence_of_hosts sources hosts Hh) in H.
  rewrite (credibility_scores_of_hosts sources hosts Hh) in H.
  cbn [bind is_independent] in H. injection H as <-.
  cbn [brand brand_is_valid brand_checks credibility_scores domain_analysis
       forallb snd].
  rewrite andb_true_r.
  repeat split; reflexivity.
Qed.

(** X4: The brand validator fails exactly when [urlparse] rejects a source URL,
    and then with the error of [urlparse]. *)
Theorem validate_brand_cross_raises (brand_name : pystr)
  (sources : list source) (e : pyexn) :
  validate_brand_cross brand_name sources = Raise e
  <-> hosts_of sources = Raise e.
Proof.
  destruct (hosts_of sources) as [hosts|e'] eqn:Hh.
  - destruct (validate_brand_cross_of_hosts brand_name sources hosts Hh)
      as (r & _ & _ & _ & _ & Hr & _).
    rewrite Hr. split; discriminate.
  - unfold validate_brand_cross, check_source_independence.
    unfold hosts_of in Hh. rewrite Hh. cbn [bind].
    split; intros Heq; injection Heq as <-; reflexivity.
Qed.

(** X5: Two independent sources are two sources: the [source_count] check is
    implied by the [independence] check, and a brand is valid exactly when
    the three other checks hold. *)
Theorem validate_brand_cross_count_implied (brand_name : pystr)
  (sources : list source) (r : brand_result) :
  validate_brand_cross brand_name sources = Ok r ->
  (check (py "independence") (brand_checks r) = Some true ->
   check (py "source_count") (brand_checks r) = Some true)
  /\ (brand_is_valid r = true ->
      (2 <= length sources)%nat
      /\ (2 <= length (credibility_scores r))%nat
      /\ is_independent (domain_analysis r) = true).
Proof.
  intros H.
  destruct (validate_brand_cross_fields brand_name sources r H)
    as (hosts & Hh & _ & Hv & Hc1 & Hc2 & _ & Hs & Hd).
  pose proof (mapM_length _ _ _ Hh) as Hlen.
  assert (Himp : (2 <=? size (list_to_set hosts : gset (list N)))%nat = true
                 -> (2 <= length sources)%nat).
  { intros Hi. apply two_distinct_size in Hi.
    destruct Hi as (a & b & Ha & Hb & Hab).
    rewrite <- Hlen.
    destruct hosts as [|x [|y l]]; [destruct Ha | | simpl; lia].
    exfalso. destruct Ha as [<-|[]], Hb as [<-|[]]. apply Hab. reflexivity. }
  split.
  - rewrite Hc1, Hc2. intros Hi. injection Hi as Hi.
    f_equal. apply Nat.leb_le. auto.
  - rewrite Hv, !andb_true_iff. intros (Hc & Hi & _).
    apply Nat.leb_le in Hc. rewrite Hs, Hd, length_map.
    cbn [is_independent]. repeat split; [exact Hc | lia | exact Hi].
Qed.

(** X6: A name with a forbidden phrase is never valid, whatever the sources. *)
Theorem validate_brand_cross_template_name (brand_name p : pystr)
  (sources : list source) (r : brand_result) :
  In p forbidden_patterns ->
  contains p brand_name = true ->
  validate_brand_cross brand_name sources = Ok r ->
  brand_is_valid r = false
  /\ check (py "not_template") (brand_checks r) = Some false.
Proof.
  intros Hp Hc H.
  destruct (validate_brand_cross_fields brand_name sources r H)
    as (hosts & _ & _ & Hv & _ & _ & Hn & _).
  assert (Hex : existsb (fun p => contains p brand_name) forbidden_patterns
                = true).
  { apply existsb_exists. exists p. auto. }
  rewrite Hv, Hn, Hex. cbn [negb]. split.
  - rewrite !andb_false_r. reflexivity.
  - reflexivity.
Qed.

(** X7: Further sources never turn a valid brand invalid. *)
Theorem validate_brand_cross_more_sources (brand_name : pystr)
  (s1 s2 : list source) (r1 r : brand_result) :
  validate_brand_cross brand_name s1 = Ok r1 ->
  validate_brand_cross brand_name (s1 ++ s2) = Ok r ->
  brand_is_valid r1 = true -> brand_is_valid r = true.
Proof.
  intros H1 H.
  destruct (validate_brand_cross_fields brand_name s1 r1 H1)
    as (h1 & Hh1 & _ & Hv1 & _).
  destruct (validate_brand_cross_fields brand_name _ r H)
    as (hosts & Hh & _ & Hv & _).
  destruct (hosts_of_app s1 s2 hosts Hh) as (h1' & h2 & Hh1' & _ & ->).
  rewrite Hh1 in Hh1'. injection Hh1' as <-.
  rewrite Hv1, Hv, !andb_true_iff.
  intros (Hc & Hi & Hcr & Hn). repeat split.
  - apply Nat.leb_le. apply Nat.leb_le in Hc. rewrite length_app. lia.
  - apply two_distinct_size. apply two_distinct_size in Hi.
    destruct Hi as (a & b & Ha & Hb & Hab). exists a, b.
    rewrite !in_app_iff. auto.
  - rewrite map_app, existsb_app, Hcr. reflexivity.
  - exact Hn.
Qed.


(** X9: The checks of a policy result hang together: a government source is a
    source URL, and for a title that is a string [not_template] fails
    exactly when the title has both of the first two stock phrases. *)
Theorem validate_policy_cross_checks (policy_data : pydict)
  (r : policy_result) (t : pystr) :
  get (py "title") (VStr []) policy_data = VStr t ->
  validate_policy_cross policy_data = Ok r ->
  (check (py "is_gov_source") (policy_checks r) = Some true ->
   check (py "has_source_url") (policy_checks r) = Some true)
  /\ (check (py "not_template") (policy_checks r) = Some false
      <-> contains (py "关于促进") t = true
          /\ contains (py "关于加快") t = true).
Proof.
  intros Ht H. unfold validate_policy_cross in H. rewrite Ht in H.
  cbn [slice_to bind firstn all_in py_in] in H.
  apply bind_ok in H as (gov & Hgov & H).
  apply bind_ok in H as (all2 & Hall & H). injection H as <-.
  cbn [policy_checks]. split.
  - intros Hg. vm_compute in Hg.
    change (check (py "has_source_url") ?l) with
      (Some (truthy (get (py "source_url") (VStr []) policy_data))).
    unfold is_gov_source in Hgov.
    destruct (truthy (get (py "source_url") (VStr []) policy_data));
      [reflexivity|].
    injection Hgov as <-. discriminate.
  - change (check (py "not_template") ?l) with (Some (negb all2)).
    destruct (contains (py "关于促进") t); cbn [bind] in Hall.
    + destruct (contains (py "关于加快") t); cbn [bind] in Hall;
        injection Hall as <-; cbn; split; intros; try tauto;
        try discriminate; intuition discriminate.
    + injection Hall as <-. cbn. split; intros; try discriminate.
      intuition discriminate.
Qed.

End Validator.


Lemma check_source_independence_bounds_witness :
  exists r,
    @check_source_independence reference_runtime gugong_sources = Ok r
    /\ (length (unique_domains r) <= total_sources r)%nat.
Proof.
  assert (Hr : exists r,
    @check_source_independence reference_runtime gugong_sources = Ok r)
    by (eexists; evaluate).
  destruct Hr as (r & Hr). exists r. split; [exact Hr|].
  apply (@check_source_independence_bounds reference_runtime
           gugong_sources r Hr).
Defined.

Lemma check_source_independence_monotone_witness :
  exists r,
    @check_source_independence reference_runtime
      (gugong_sources ++ [without_url]) = Ok r
    /\ is_independent r = true.
Proof.
  assert (H1 : exists r1,
    @check_source_independence reference_runtime gugong_sources = Ok r1
    /\ is_independent r1 = true)
    by (eexists; split; evaluate).
  assert (Hr : exists r,
    @check_source_independence reference_runtime
      (gugong_sources ++ [without_url]) = Ok r)
    by (eexists; evaluate).
  destruct H1 as (r1 & Hr1 & Hi), Hr as (r & Hr).
  exists r. split; [exact Hr|].
  exact (@check_source_independence_monotone reference_runtime
           gugong_sources [without_url] r1 r Hr1 Hr Hi).
Defined.

Lemma validate_brand_cross_count_implied_witness :
  exists r,
    @validate_brand_cross reference_runtime (py "故宫淘宝") gugong_sources
    = Ok r
    /\ (check (py "independence") (brand_checks r) = Some true ->
        check (py "source_count") (brand_checks r) = Some true).
Proof.
  assert (Hr : exists r,
    @validate_brand_cross reference_runtime (py "故宫淘宝") gugong_sources
    = Ok r) by (eexists; evaluate).
  destruct Hr as (r & Hr). exists r. split; [exact Hr|].
  apply (@validate_brand_cross_count_implied reference_runtime
           (py "故宫淘宝") gugong_sources r Hr).
Defined.

Lemma validate_brand_cross_template_name_witness :
  exists r,
    @validate_brand_cross reference_runtime (py "北京文创品牌")
      gugong_sources = Ok r
    /\ brand_is_valid r = false.
Proof.
  assert (Hr : exists r,
    @validate_brand_cross reference_runtime (py "北京文创品牌")
      gugong_sources = Ok r) by (eexists; evaluate).
  assert (Hp : In (py "文创品牌") forbidden_patterns)
    by (left; reflexivity).
  assert (Hc : contains (py "文创品牌") (py "北京文创品牌") = true)
    by evaluate.
  destruct Hr as (r & Hr). exists r. split; [exact Hr|].
  apply (@validate_brand_cross_template_name reference_runtime
           (py "北京文创品牌") (py "文创品牌") gugong_sources r Hp Hc Hr).
Defined.

Lemma validate_brand_cross_more_sources_witness :
  exists r,
    @validate_brand_cross reference_runtime (py "故宫淘宝")
      (gugong_sources ++ [without_url]) = Ok r
    /\ brand_is_valid r = true.
Proof.
  assert (H1 : exists r1,
    @validate_brand_cross reference_runtime (py "故宫淘宝") gugong_sources
    = Ok r1 /\ brand_is_valid r1 = true)
    by (eexists; split; evaluate).
  assert (Hr : exists r,
    @validate_brand_cross reference_runtime (py "故宫淘宝")
      (gugong_sources ++ [without_url]) = Ok r)
    by (eexists; evaluate).
  destruct H1 as (r1 & Hr1 & Hv), Hr as (r & Hr).
  exists r. split; [exact Hr|].
  exact (@validate_brand_cross_more_sources reference_runtime
           (py "故宫淘宝") gugong_sources [without_url] r1 r Hr1 Hr Hv).
Defined.


Lemma validate_policy_cross_checks_witness :
  exists r,
    @validate_policy_cross reference_runtime path_gov_policy = Ok r
    /\ check (py "has_source_url") (policy_checks r) = Some true.
Proof.
  assert (Ht : get (py "title") (VStr []) path_gov_policy
               = VStr (py "某地文化产业政策")) by evaluate.
  assert (Hr : exists r,
    @validate_policy_cross reference_runtime path_gov_policy = Ok r
    /\ check (py "is_gov_source") (policy_checks r) = Some true)
    by (eexists; split; evaluate).
  destruct Hr as (r & Hr & Hg). exists r. split; [exact Hr|].
  destruct (@validate_policy_cross_checks reference_runtime path_gov_policy
              r _ Ht Hr) as (Himp & _).
  exact (Himp Hg).
Defined.

End CrossValidatorMore.

(** ** The validation report *)

Module ReportingProofs.
Import CrossValidator Reporting.

Lemma record_results_fields (ds : list detail) (rep : report) :
  let rep' := fold_left record_result ds rep in
  data_type rep' = data_type rep
  /\ total rep' = total rep
  /\ details rep' = details rep ++ ds
  /\ passed rep' = (passed rep + length (List.filter detail_is_valid ds))%nat
  /\ (passed rep' + failed rep' = passed rep + failed rep + length ds)%nat.
Proof.
  revert rep. induction ds as [|d ds IH]; intros rep; cbn [fold_left].
  - cbn. rewrite app_nil_r. repeat split; lia.
  - specialize (IH (record_result rep d)). cbv zeta in IH.
    destruct IH as (H1 & H2 & H3 & H4 & H5).
    cbn [record_result data_type total details passed failed] in *.
    rewrite H1, H2, H3, H4, <- app_assoc. cbn [List.filter length app].
    destruct (detail_is_valid d); cbn [length]; repeat split; lia.
Qed.

Section Report.
Context {RT : Runtime}.

(** With a data type that selects a validator, the loop records the result
    of every item, in order. *)
Lemma report_loop_validated (dtype : pystr) (items : list item)
  (rep rep' : report) :
  (forall it, validate_item dtype it <> Ok None) ->
  report_loop dtype items rep = Ok rep' ->
  exists ds,
    Forall2 (fun it d => validate_item dtype it = Ok (Some d)) items ds
    /\ rep' = fold_left record_result ds rep.
Proof.
  intros Hsel. revert rep.
  induction items as [|it items IH]; intros rep H; cbn [report_loop] in H.
  - injection H as <-. exists []. split; [constructor | reflexivity].
  - apply bind_ok in H as (o & Ho & H).
    destruct o as [d|]; [|destruct (Hsel it Ho)].
    destruct (IH _ H) as (ds & Hds & ->).
    exists (d :: ds). split; [constructor; assumption | reflexivity].
Qed.

Lemma validate_item_selected (dtype : pystr) (it : item) :
  dtype = py "brand" \/ dtype = py "policy" ->
  validate_item dtype it <> Ok None.
Proof.
  unfold validate_item. intros [-> | ->].
  - change (str_eqb (py "brand") (py "brand")) with true. cbn match.
    destruct (validate_brand_cross _ _); discriminate.
  - change (str_eqb (py "policy") (py "brand")) with false.
    change (str_eqb (py "policy") (py "policy")) with true. cbn match.
    destruct (validate_policy_cross _); discriminate.
Qed.

(** X10: For brands and for policies the report counts every item once, as
    passed or as failed, and lists the results in the order of the items. *)
Theorem generate_validation_report_counts (items : list item)
  (dtype : pystr) (rep : report) :
  dtype = py "brand" \/ dtype = py "policy" ->
  generate_validation_report items dtype = Ok rep ->
  data_type rep = dtype
  /\ total rep = length items
  /\ length (details rep) = length items
  /\ (passed rep + failed rep = total rep)%nat
  /\ passed rep = length (List.filter detail_is_valid (details rep))
  /\ Forall2 (fun it d => validate_item dtype it = Ok (Some d))
       items (details rep).
Proof.
  intros Hd H. unfold generate_validation_report in H.
  destruct (report_loop_validated dtype items _ rep
              (fun it => validate_item_selected dtype it Hd) H) as (ds & Hds & ->).
  pose proof (record_results_fields ds
                {| data_type := dtype; total := length items;
                   passed := 0; failed := 0; details := [] |}) as Hf.
  cbv zeta in Hf. destruct Hf as (H1 & H2 & H3 & H4 & H5).
  cbn [data_type total details passed failed app] in *.
  assert (Hlen : length items = length ds)
    by (eapply Forall2_length; exact Hds).
  rewrite H1, H2, H3, H4. repeat split; try lia; try assumption.
Qed.

(** X11: With any other data type every item is skipped: nothing is counted and
    nothing is listed, while [total] is still the number of items. *)
Theorem generate_validation_report_other_type (items : list item)
  (dtype : pystr) :
  dtype <> py "brand" -> dtype <> py "policy" ->
  generate_validation_report items dtype
  = Ok {| data_type := dtype; total := length items;
          passed := 0; failed := 0; details := [] |}.
Proof.
  intros Hb Hp. unfold generate_validation_report.
  generalize {| data_type := dtype; total := length items;
                passed := 0; failed := 0; details := [] |}.
  induction items as [|it items IH]; intros rep; cbn [report_loop];
    [reflexivity|].
  unfold validate_item.
  rewrite (MiddlewareProofs.str_eqb_neq _ _ Hb),
    (MiddlewareProofs.str_eqb_neq _ _ Hp).
  cbn [bind]. apply IH.
Qed.

End Report.

Lemma generate_validation_report_counts_witness :
  exists rep,
    @generate_validation_report reference_runtime
      [gugong_item; template_item] (py "brand") = Ok rep
    /\ total rep = 2%nat /\ passed rep = 1%nat /\ failed rep = 1%nat.
Proof.
  assert (Hr : exists rep,
    @generate_validation_report reference_runtime
      [gugong_item; template_item] (py "brand") = Ok rep
    /\ passed rep = 1%nat) by (eexists; split; evaluate).
  destruct Hr as (rep & Hr & Hp). exists rep. split; [exact Hr|].
  destruct (@generate_validation_report_counts reference_runtime
              [gugong_item; template_item] (py "brand") rep
              (or_introl eq_refl) Hr)
    as (_ & Ht & _ & Hsum & _).
  cbn [length] in Ht. rewrite Ht in *. repeat split; lia.
Defined.

Lemma generate_validation_report_other_type_witness :
  @generate_validation_report reference_runtime
    [gugong_item; template_item] (py "product")
  = Ok {| data_type := py "product"; total := 2;
          passed := 0; failed := 0; details := [] |}.
Proof.
  apply (@generate_validation_report_other_type reference_runtime
           [gugong_item; template_item] (py "product"));
    vm_compute; discriminate.
Defined.

End ReportingProofs.

(** ** More on the verification middleware *)

Module MiddlewareMore.
Import Middleware MiddlewareProofs.

Lemma Ok_inj {X} (a b : X) : Ok a = Ok b -> a = b.
Proof. intros H. injection H as H. exact H. Qed.

Lemma startswith_app (p s : pystr) : startswith p (p ++ s) = true.
Proof.
  induction p as [|a p IH]; [reflexivity|]. simpl.
  rewrite N.eqb_refl. exact IH.
Qed.

Lemma startswith_split (p s : pystr) :
  startswith p s = true -> exists b, s = p ++ b.
Proof.
  revert s. induction p as [|a p IH]; intros s H.
  - exists s. reflexivity.
  - destruct s as [|x s]; [discriminate|]. simpl in H.
    apply andb_true_iff in H as [Hax H]. apply N.eqb_eq in Hax. subst x.
    destruct (IH s H) as (b & ->). exists b. reflexivity.
Qed.

(** [p in s] holds exactly when [s] is some text, [p], and some text. *)
Lemma contains_split (p s : pystr) :
  contains p s = true <-> exists a b, s = a ++ p ++ b.
Proof.
  split.
  - induction s as [|x s IH]; simpl; intros H.
    + rewrite orb_false_r in H. destruct (startswith_split p [] H) as (b & Hb).
      exists [], b. exact Hb.
    + apply orb_true_iff in H as [H|H].
      * destruct (startswith_split p (x :: s) H) as (b & Hb).
        exists [], b. exact Hb.
      * destruct (IH H) as (a & b & ->). exists (x :: a), b. reflexivity.
  - intros (a & b & ->). induction a as [|x a IH].
    + cbn [app]. destruct (p ++ b) eqn:E; simpl; rewrite <- E;
        rewrite startswith_app; reflexivity.
    + cbn [app contains]. rewrite IH. apply orb_true_r.
Qed.

Lemma contains_app_l (p s t : pystr) :
  contains p s = true -> contains p (s ++ t) = true.
Proof.
  rewrite !contains_split. intros (a & b & ->). exists a, (b ++ t).
  rewrite <- !app_assoc. reflexivity.
Qed.

Lemma contains_app_r (p s t : pystr) :
  contains p t = true -> contains p (s ++ t) = true.
Proof.
  rewrite !contains_split. intros (a & b & ->). exists (s ++ a), b.
  rewrite <- !app_assoc. reflexivity.
Qed.

Lemma contains_join (p sep x : pystr) (l : list pystr) :
  In x l -> contains p x = true -> contains p (join sep l) = true.
Proof.
  intros Hin Hx. induction l as [|y l IH]; [destruct Hin|].
  destruct l as [|z l].
  - destruct Hin as [->|[]]. exact Hx.
  - change (join sep (y :: z :: l)) with (y ++ sep ++ join sep (z :: l)).
    destruct Hin as [->|Hin].
    + apply contains_app_l. exact Hx.
    + apply contains_app_r, contains_app_r, IH. exact Hin.
Qed.

(** A word of characters that [json.dumps] prints as they are survives the
    printing of a string that has it. *)
Lemma contains_json_string (p s : pystr) :
  (forall c, In c p -> json_escape_cp c = [c]) ->
  contains p s = true -> contains p (json_string s) = true.
Proof.
  intros Hp Hs. apply contains_split in Hs as (a & b & ->).
  unfold json_string. rewrite !flat_map_app.
  assert (E : flat_map json_escape_cp p = p).
  { clear -Hp. induction p as [|c p IH]; [reflexivity|]. simpl.
    rewrite (Hp c) by (left; reflexivity). rewrite IH; [reflexivity|].
    intros c' Hc'. apply Hp. right. exact Hc'. }
  rewrite E. apply contains_app_r, contains_app_l, contains_app_r.
  apply contains_app_l. apply contains_split. exists [], []. 
  rewrite app_nil_r. reflexivity.
Qed.

(** A word in a key, or in a string value, of a record is in the text
    [json.dumps] prints for the record. *)
Lemma contains_dumps_item (p : pystr) (d : pydict) (k : pystr) (x : pyval) :
  In (k, x) d ->
  contains p (dict_item (k, x)) = true ->
  contains p (json_dumps (VDict d)) = true.
Proof.
  intros Hin Hc. rewrite json_dumps_dict.
  apply contains_app_r, contains_app_l.
  apply (contains_join p _ (dict_item (k, x))); [|exact Hc].
  apply in_map. exact Hin.
Qed.

Lemma lookup_key_In (k : pystr) (d : pydict) (x : pyval) :
  lookup_key k d = Some x -> In (k, x) d.
Proof.
  induction d as [|[k' v'] d IH]; simpl; [discriminate|].
  destruct (str_eqb k k') eqn:E.
  - apply str_eqb_eq in E. subst k'. intros H. injection H as ->. now left.
  - intros H. right. auto.
Qed.

Lemma scan_templates_str (patterns : list pystr) (n : pystr) :
  scan_templates patterns (VStr n)
  = Ok (map template_error
          (List.filter (fun p => contains p n) patterns)).
Proof.
  induction patterns as [|p ps IH]; [reflexivity|].
  cbn [scan_templates py_in bind List.filter]. rewrite IH. cbn [bind].
  destruct (contains p n); reflexivity.
Qed.

Lemma scan_templates_sub (patterns : list pystr) (name : pyval)
  (es : list pystr) :
  scan_templates patterns name = Ok es ->
  (length es <= length patterns)%nat
  /\ forall e, In e es -> exists p, In p patterns /\ e = template_error p.
Proof.
  revert es. induction patterns as [|p ps IH]; intros es H.
  - injection H as <-. split; [reflexivity | intros e []].
  - cbn [scan_templates] in H. apply bind_ok in H as (b & _ & H).
    apply bind_ok in H as (es' & Hes & H). injection H as <-.
    destruct (IH es' Hes) as (Hlen & Hsub). split.
    + destruct b; simpl; lia.
    + intros e He.
      assert (Hcase : e = template_error p \/ In e es')
        by (destruct b; [destruct He as [<-|He]|]; auto).
      destruct Hcase as [-> | He'].
      * exists p. split; [now left | reflexivity].
      * destruct (Hsub e He') as (q & Hq & ->). exists q.
        split; [now right | reflexivity].
Qed.

(** With a source marker in the printed record no KPI lacks its source. *)
Lemma scan_kpi_sourced (data_str : pystr) (kpi : pydict) :
  contains (py "来源") data_str || contains (py "source") data_str = true ->
  scan_kpi data_str kpi = [].
Proof.
  intros H. unfold scan_kpi.
  assert (E : negb (contains (py "来源") data_str)
              && negb (contains (py "source") data_str) = false).
  { destruct (contains (py "来源") data_str); [reflexivity|].
    destruct (contains (py "source") data_str); [reflexivity|discriminate]. }
  rewrite E. induction kpi as [|[key value] kpi IH]; [reflexivity|].
  cbn [flat_map]. rewrite IH, app_nil_r.
  destruct value as [| | |s| |]; try reflexivity.
  destruct (orb (contains (py "万") s) (contains (py "亿") s)); reflexivity.
Qed.

Lemma scan_kpi_sub (data_str : pystr) (kpi : pydict) (w : pystr) :
  In w (scan_kpi data_str kpi) ->
  exists key value, In (key, value) kpi /\ w = kpi_warning key.
Proof.
  unfold scan_kpi. intros H. apply in_flat_map in H as ([key value] & Hin & H).
  exists key, value. split; [exact Hin|].
  destruct value as [| | |s| |]; try destruct H.
  destruct (orb (contains (py "万") s) (contains (py "亿") s));
    [|destruct H].
  destruct (andb _ _); [|destruct H].
  destruct H as [<-|[]]. reflexivity.
Qed.

Lemma unescaped_source_markers :
  (forall c, In c (py "source") -> json_escape_cp c = [c])
  /\ (forall c, In c (py "来源") -> json_escape_cp c = [c]).
Proof.
  split; intros c Hc; vm_compute in Hc;
    repeat (destruct Hc as [<-|Hc]; [reflexivity|]); destruct Hc.
Qed.


(** The three checkers, their result taken apart. *)
Lemma _check_hallucination_inv (d : pydict) (f : findings) :
  _check_hallucination d = Ok f ->
  scan_templates template_patterns
    (get (py "name") (get (py "title") (VStr []) d) d) = Ok (f_errors f)
  /\ f_warnings f
     = scan_vague (json_dumps (VDict d))
       ++ match lookup_key (py "kpi") d with
          | Some (VDict kpi) => scan_kpi (json_dumps (VDict d)) kpi
          | _ => []
          end.
Proof.
  unfold _check_hallucination. intros H.
  apply bind_ok in H as (es & Hes & H). injection H as <-.
  split; [exact Hes | reflexivity].
Qed.

Lemma _check_sources_inv (d : pydict) (f : findings) :
  _check_sources d = Ok f ->
  f_warnings f
  = (if truthy (get_none (py "source_url") d)
        || (truthy (get_none (py "sources") d)
        || (is_real_brand (get_none (py "type") d)
        || (truthy (get_none (py "verified") d) || false)))
     then [] else [no_source_warning])
  /\ ((truthy (get (py "source_url") (VStr []) d) = false /\ f_errors f = [])
      \/ exists s,
           get (py "source_url") (VStr []) d = VStr s /\ s <> []
           /\ f_errors f
              = if startswith (py "http://") s || startswith (py "https://") s
                then [] else [url_format_error]).
Proof.
  unfold _check_sources. intros H.
  apply bind_ok in H as (es & Hes & H). injection H as <-.
  cbn [f_errors f_warnings existsb]. split; [reflexivity|].
  destruct (truthy (get (py "source_url") (VStr []) d)) eqn:Ht.
  - right. destruct (get (py "source_url") (VStr []) d) as [| | |s| |];
      try discriminate.
    exists s. split; [reflexivity|]. split.
    + intros ->. discriminate.
    + injection Hes as <-. reflexivity.
  - left. injection Hes as <-. auto.
Qed.

Lemma _check_required_fields_inv (d : pydict) (f : findings) :
  _check_required_fields d = Ok f ->
  f_warnings f = []
  /\ exists is_policy : bool,
       f_errors f
       = (if has_key (py "category") d
          then map missing_field_error
                 (List.filter
                    (fun field => negb (truthy (get_none field d))) required)
          else [])
         ++ (if is_policy then [policy_error] else []).
Proof.
  unfold _check_required_fields. intros H.
  apply bind_ok in H as (b & _ & H). injection H as <-.
  split; [reflexivity|]. eexists. reflexivity.
Qed.

Lemma verify_data_inv (d : pydict) (v : verdict) :
  verify_data d = Ok v ->
  exists h fc s,
    _check_hallucination d = Ok h
    /\ (if has_key (py "name") d || has_key (py "title") d
        then _check_required_fields d
        else Ok {| f_errors := []; f_warnings := [] |}) = Ok fc
    /\ _check_sources d = Ok s
    /\ v = make_verdict (f_errors h ++ f_errors fc ++ f_errors s)
             (f_warnings h ++ f_warnings fc ++ f_warnings s).
Proof.
  unfold verify_data. intros H.
  apply bind_ok in H as (h & Hh & H).
  apply bind_ok in H as (fc & Hf & H).
  apply bind_ok in H as (s & Hs & H). injection H as <-.
  exists h, fc, s. auto.
Qed.

Lemma verdict_rejected (es ws : list pystr) (e : pystr) :
  In e es ->
  passed (make_verdict es ws) = false
  /\ v_level (make_verdict es ws) = REJECTED.
Proof. destruct es; [intros []|]. intros _. split; reflexivity. Qed.

Lemma verdict_not_clean (es ws : list pystr) (w : pystr) :
  In w ws -> v_level (make_verdict es ws) <> A.
Proof.
  destruct ws; [intros []|]. intros _. destruct es; discriminate.
Qed.

Lemma _check_sources_one_finding_aux (d : pydict) (f : findings) :
  _check_sources d = Ok f ->
  (f_errors f = [] \/ f_errors f = [url_format_error])
  /\ (f_warnings f = [] \/ f_warnings f = [no_source_warning]).
Proof.
  intros H. destruct (_check_sources_inv d f H) as (Hw & He). split.
  - destruct He as [(_ & ->) | (s & _ & _ & ->)]; [auto|].
    destruct (orb (startswith _ s) _); auto.
  - rewrite Hw. destruct (orb (truthy _) _); auto.
Qed.

(** X12: The source check reports at most one thing: the missing-source warning
    or the URL-format error, never both. *)
Theorem _check_sources_one_finding (d : pydict) (f : findings) :
  _check_sources d = Ok f ->
  (f_errors f = [] \/ f_errors f = [url_format_error])
  /\ (f_warnings f = [] \/ f_warnings f = [no_source_warning])
  /\ (f_errors f = [] \/ f_warnings f = []).
Proof.
  intros H. destruct (_check_sources_one_finding_aux d f H) as (He & Hw).
  split; [exact He|]. split; [exact Hw|].
  destruct (_check_sources_inv d f H) as (Hw' & [(_ & He') | He']);
    [left; exact He'|].
  destruct He' as (s & Hs & Hne & _). right. rewrite Hw'.
  assert (Ht : truthy (get_none (py "source_url") d) = true).
  { unfold get_none, get in *. destruct (lookup_key (py "source_url") d).
    - subst p. destruct s; [congruence | reflexivity].
    - injection Hs as <-. congruence. }
  rewrite Ht. reflexivity.
Qed.

(** X13: A record with a key whose name has ["source"] or ["来源"] in it, such as
    ['source_url'] or ['sources'], whatever its value, never gets the
    warning that a KPI lacks its source. *)
Theorem kpi_warning_suppressed_by_key (d : pydict) (k : pystr)
  (f : findings) :
  has_key k d = true ->
  contains (py "source") k = true \/ contains (py "来源") k = true ->
  _check_hallucination d = Ok f ->
  forall key, ~ In (kpi_warning key) (f_warnings f).
Proof.
  intros Hk Hc H key Hin.
  destruct (_check_hallucination_inv d f H) as (_ & Hw).
  assert (Hs : contains (py "来源") (json_dumps (VDict d))
               || contains (py "source") (json_dumps (VDict d)) = true).
  { unfold has_key in Hk.
    destruct (lookup_key k d) as [x|] eqn:E; [|discriminate].
    apply lookup_key_In in E.
    destruct unescaped_source_markers as (Hs1 & Hs2).
    apply orb_true_iff.
    destruct Hc as [Hc|Hc]; [right|left];
      apply (contains_dumps_item _ d k x E); unfold dict_item; cbn [fst];
      apply contains_app_l, contains_json_string; assumption. }
  rewrite Hw in Hin. apply in_app_or in Hin as [Hin|Hin].
  - unfold scan_vague in Hin. apply in_map_iff in Hin as (w & Heq & _).
    apply (f_equal (hd 0%N)) in Heq. vm_compute in Heq. discriminate.
  - destruct (lookup_key (py "kpi") d) as [[| | | | |kpi]|];
      try destruct Hin.
    rewrite (scan_kpi_sourced _ kpi Hs) in Hin. destruct Hin.
Qed.

(** X14: Without a ['category'] key the required-field check reports nothing and
    does not fail. *)
Theorem _check_required_fields_without_category (d : pydict) :
  has_key (py "category") d = false ->
  _check_required_fields d = Ok {| f_errors := []; f_warnings := [] |}.
Proof.
  intros Hc. unfold _check_required_fields. rewrite Hc.
  assert (Hg : get (py "category") (VStr []) d = VStr []).
  { unfold get. unfold has_key in Hc.
    destruct (lookup_key (py "category") d); [discriminate | reflexivity]. }
  rewrite Hg. destruct (has_key (py "title") d); reflexivity.
Qed.


(** X16: The errors of a verdict come from a fixed catalogue, at most fifteen of
    them; so do its warnings, up to the KPI keys. *)
Theorem verify_data_catalogue (d : pydict) (v : verdict) :
  verify_data d = Ok v ->
  (forall e, In e (errors v) ->
     (exists p, In p template_patterns /\ e = template_error p)
     \/ (exists field, In field required /\ e = missing_field_error field)
     \/ e = policy_error \/ e = url_format_error)
  /\ (forall w, In w (warnings v) ->
        (exists word, In word vague_words /\ w = vague_warning word)
        \/ (exists kpi key value,
              lookup_key (py "kpi") d = Some (VDict kpi)
              /\ In (key, value) kpi /\ w = kpi_warning key)
        \/ w = no_source_warning)
  /\ (length (errors v) <= 15)%nat.
Proof.
  intros H.
  destruct (verify_data_inv d v H) as (h & fc & s & Hh & Hf & Hs & ->).
  destruct (_check_hallucination_inv d h Hh) as (Hhe & Hhw).
  destruct (scan_templates_sub _ _ _ Hhe) as (Hhlen & Hhsub).
  destruct (_check_sources_one_finding_aux d s Hs) as (Hse & Hsw).
  assert (Hfc : f_warnings fc = []
    /\ (length (f_errors fc) <= 4)%nat
    /\ forall e, In e (f_errors fc) ->
         (exists field, In field required /\ e = missing_field_error field)
         \/ e = policy_error).
  { destruct (has_key (py "name") d || has_key (py "title") d).
    - destruct (_check_required_fields_inv d fc Hf) as (Hw & b & He).
      split; [exact Hw|]. rewrite He. split.
      + rewrite length_app.
        assert (L1 : (length
                        (if has_key (py "category") d
                         then map missing_field_error
                                (List.filter
                                   (fun field =>
                                      negb (truthy (get_none field d)))
                                   required)
                         else []) <= 3)%nat).
        { destruct (has_key (py "category") d); [|simpl; lia].
          rewrite length_map.
          etransitivity; [apply filter_length_le | reflexivity]. }
        destruct b; cbn [length]; lia.
      + intros e Hin. apply in_app_or in Hin as [Hin|Hin].
        * left. destruct (has_key (py "category") d); [|destruct Hin].
          apply in_map_iff in Hin as (field & <- & Hfield).
          apply filter_In in Hfield as (Hfield & _).
          exists field. split; [exact Hfield | reflexivity].
        * right. destruct b; [|destruct Hin].
          destruct Hin as [<-|[]]. reflexivity.
    - injection Hf as <-. cbn [f_errors f_warnings length].
      split; [reflexivity|]. split; [lia|]. intros e []. }
  destruct Hfc as (Hfw & Hflen & Hfsub).
  cbn [errors warnings make_verdict]. split; [|split].
  - intros e He. apply in_app_or in He as [He|He]; [left; auto|].
    apply in_app_or in He as [He|He].
    + destruct (Hfsub e He) as [Hm | Hm]; [right; left; exact Hm|].
      right. right. left. exact Hm.
    + destruct Hse as [E|E]; rewrite E in He; [destruct He|].
      destruct He as [<-|[]]. right. right. right. reflexivity.
  - intros w Hw. apply in_app_or in Hw as [Hw|Hw].
    + rewrite Hhw in Hw. apply in_app_or in Hw as [Hw|Hw].
      * left. unfold scan_vague in Hw.
        apply in_map_iff in Hw as (word & <- & Hword).
        apply filter_In in Hword as (Hword & _). exists word.
        split; [exact Hword | reflexivity].
      * right. left.
        destruct (lookup_key (py "kpi") d) as [[| | | | |kpi]|];
          try destruct Hw.
        destruct (scan_kpi_sub _ _ _ Hw) as (key & value & Hin & ->).
        exists kpi, key, value.
        split; [reflexivity|]. split; [exact Hin | reflexivity].
    + rewrite Hfw in Hw. cbn [app] in Hw.
      destruct Hsw as [E|E]; rewrite E in Hw; [destruct Hw|].
      destruct Hw as [<-|[]]. right. right. reflexivity.
  - rewrite !length_app.
    assert (L10 : length template_patterns = 10%nat) by reflexivity.
    assert (Ls : (length (f_errors s) <= 1)%nat)
      by (destruct Hse as [E|E]; rewrite E; simpl; lia).
    lia.
Qed.

Lemma set_item_twice (k : pystr) (m1 m2 : pyval) (d : pydict) :
  set_item k m2 (set_item k m1 d) = set_item k m2 d.
Proof.
  induction d as [|[k' v'] d IH]; simpl.
  - rewrite (proj2 (str_eqb_eq k k) eq_refl). reflexivity.
  - destruct (str_eqb k k') eqn:E; simpl; rewrite E; [reflexivity|].
    rewrite IH. reflexivity.
Qed.

Lemma set_item_keys (k : pystr) (m : pyval) (d : pydict) :
  map fst (set_item k m d)
  = if has_key k d then map fst d else map fst d ++ [k].
Proof.
  unfold has_key. induction d as [|[k' v'] d IH]; simpl; [reflexivity|].
  destruct (str_eqb k k') eqn:E; simpl; [reflexivity|].
  rewrite IH. destruct (lookup_key k d); reflexivity.
Qed.

(** X17: The record the wrapper returns has the keys of the record in their
    order, with ['_verification'] added at the end when it was not there. *)
Theorem validate_required_keys (strict_mode : bool) (now : datetime)
  (d d' : pydict) :
  validate_required strict_mode now (VDict d) = Ok (VDict d') ->
  map fst d'
  = (if has_key mark_key d then map fst d else map fst d ++ [mark_key])
  /\ has_key mark_key d' = true
  /\ (length d <= length d' <= S (length d))%nat.
Proof.
  unfold validate_required. intros H.
  apply bind_ok in H as (v & _ & H).
  assert (Hd : exists m, d' = set_item mark_key m d).
  { destruct (negb (passed v)); [destruct strict_mode; [discriminate|]|];
      injection H as <-; eexists; reflexivity. }
  destruct Hd as (m & ->).
  pose proof (set_item_keys mark_key m d) as Hk.
  split; [exact Hk|]. split.
  - unfold has_key. rewrite lookup_set_item_eq. reflexivity.
  - apply (f_equal (@length _)) in Hk. rewrite length_map in Hk.
    rewrite Hk. destruct (has_key mark_key d);
      rewrite ?length_app, !length_map; simpl; lia.
Qed.

(** X18: The two modes differ on rejected records only. *)
Theorem validate_required_modes_agree (now : datetime) (d : pydict) :
  (forall v, verify_data d = Ok v -> passed v = true) ->
  validate_required true now (VDict d)
  = validate_required false now (VDict d).
Proof.
  intros H. unfold validate_required.
  destruct (verify_data d) as [v|e]; [|reflexivity].
  cbn [bind]. rewrite (H v eq_refl). reflexivity.
Qed.

(** X19: Guarding an accepted record again only renews its mark: the result is
    that of guarding the record itself at the later time. *)
Theorem validate_required_again (s1 s2 : bool) (n1 n2 : datetime)
  (d : pydict) (v : verdict) (r1 : pyval) :
  has_key mark_key d = false ->
  verify_data d = Ok v ->
  passed v = true ->
  validate_required s1 n1 (VDict d) = Ok r1 ->
  validate_required s2 n2 r1 = validate_required s2 n2 (VDict d)
  /\ validate_required s2 n2 r1
     = Ok (VDict (set_item mark_key (verified_mark (v_level v) n2) d)).
Proof.
  intros Hnew Hv Hp H1.
  assert (E : forall s n, validate_required s n (VDict d)
    = Ok (VDict (set_item mark_key (verified_mark (v_level v) n) d))).
  { intros s n. unfold validate_required. rewrite Hv. cbn [bind].
    rewrite Hp. reflexivity. }
  rewrite E in H1. injection H1 as <-. rewrite E.
  split; [|]; unfold validate_required;
    rewrite (verify_data_marked _ _ _ Hnew), Hv; cbn [bind];
    rewrite Hp; cbn [negb]; rewrite set_item_twice; reflexivity.
Qed.

(** X20: No record reaches level A without source information: a source URL, a
    source list, the type ['real_brand'] or a true ['verified']. *)
Theorem verify_data_clean_has_source (d : pydict) (v : verdict) :
  verify_data d = Ok v ->
  v_level v = A ->
  truthy (get_none (py "source_url") d) = true
  \/ truthy (get_none (py "sources") d) = true
  \/ get_none (py "type") d = VStr (py "real_brand")
  \/ truthy (get_none (py "verified") d) = true.
Proof.
  intros H HA.
  destruct (verify_data_inv d v H) as (h & fc & s & _ & _ & Hs & ->).
  destruct (_check_sources_inv d s Hs) as (Hw & _).
  destruct (truthy (get_none (py "source_url") d)); [auto|].
  destruct (truthy (get_none (py "sources") d)); [auto|].
  destruct (truthy (get_none (py "verified") d)); [auto|].
  destruct (is_real_brand (get_none (py "type") d)) eqn:Hb.
  - right. right. left. unfold is_real_brand in Hb.
    destruct (get_none (py "type") d); try discriminate.
    apply str_eqb_eq in Hb. subst. reflexivity.
  - cbn [orb] in Hw. exfalso.
    apply (verdict_not_clean _ _ no_source_warning) in HA; [exact HA|].
    rewrite Hw, !in_app_iff. right. right. left. reflexivity.
Qed.

(** X21: A source URL that is a non-empty string and does not start with
    [http://] or [https://] makes the record rejected. *)
Theorem verify_data_malformed_url (d : pydict) (v : verdict) (u : pystr) :
  lookup_key (py "source_url") d = Some (VStr u) ->
  u <> [] ->
  startswith (py "http://") u = false ->
  startswith (py "https://") u = false ->
  verify_data d = Ok v ->
  In url_format_error (errors v)
  /\ passed v = false /\ v_level v = REJECTED.
Proof.
  intros Hu Hne H1 H2 H.
  destruct (verify_data_inv d v H) as (h & fc & s & _ & _ & Hs & ->).
  destruct (_check_sources_inv d s Hs) as (_ & He).
  assert (Hin : In url_format_error (f_errors s)).
  { unfold get in He. rewrite Hu in He.
    destruct He as [(Ht & _) | (u' & Hu' & _ & ->)].
    - destruct u; [congruence | discriminate].
    - injection Hu' as <-. rewrite H1, H2. left. reflexivity. }
  assert (Hin' : In url_format_error
                   (f_errors h ++ f_errors fc ++ f_errors s))
    by (rewrite !in_app_iff; auto).
  split; [exact Hin'|]. exact (verdict_rejected _ _ _ Hin').
Qed.

(** X22: A name (or, without a ['name'] key, a title) that has one of the
    template phrases makes the record rejected, with one error for the
    phrase. *)
Theorem verify_data_template_name (d : pydict) (v : verdict)
  (n p : pystr) :
  get (py "name") (get (py "title") (VStr []) d) d = VStr n ->
  In p template_patterns ->
  contains p n = true ->
  verify_data d = Ok v ->
  In (template_error p) (errors v)
  /\ passed v = false /\ v_level v = REJECTED.
Proof.
  intros Hn Hp Hc H.
  destruct (verify_data_inv d v H) as (h & fc & s & Hh & _ & _ & ->).
  destruct (_check_hallucination_inv d h Hh) as (He & _).
  rewrite Hn, scan_templates_str in He. apply Ok_inj in He.
  assert (Hin : In (template_error p)
                  (f_errors h ++ f_errors fc ++ f_errors s)).
  { rewrite in_app_iff. left. rewrite <- He. apply in_map.
    apply filter_In. auto. }
  split; [exact Hin|]. exact (verdict_rejected _ _ _ Hin).
Qed.


(** X24: The name hides the title: with a ['name'] key the template phrases are
    looked for in the name only, so a record with an empty name has no
    template error whatever its title. *)
Theorem _check_hallucination_name_first (d : pydict) (f : findings)
  (name : pyval) :
  lookup_key (py "name") d = Some name ->
  _check_hallucination d = Ok f ->
  scan_templates template_patterns name = Ok (f_errors f)
  /\ (name = VStr [] -> f_errors f = []).
Proof.
  intros Hn H.
  destruct (_check_hallucination_inv d f H) as (He & _).
  unfold get in He at 1. rewrite Hn in He. split; [exact He|].
  intros ->. rewrite scan_templates_str in He. apply Ok_inj in He.
  rewrite <- He. evaluate.
Qed.


Lemma _check_sources_one_finding_witness :
  exists f,
    _check_sources MoreSamples.ftp_record = Ok f
    /\ f_errors f = [url_format_error] /\ f_warnings f = [].
Proof.
  assert (Hf : exists f,
    _check_sources MoreSamples.ftp_record = Ok f
    /\ f_errors f = [url_format_error])
    by (eexists; split; evaluate).
  destruct Hf as (f & Hf & He). exists f. split; [exact Hf|].
  split; [exact He|].
  destruct (_check_sources_one_finding MoreSamples.ftp_record f Hf)
    as (_ & _ & [Hn | Hw]); [|exact Hw].
  rewrite He in Hn. discriminate.
Defined.

Lemma kpi_warning_suppressed_by_key_witness :
  exists f,
    _check_hallucination MoreSamples.listed_kpi_record = Ok f
    /\ ~ In (kpi_warning (py "revenue")) (f_warnings f).
Proof.
  assert (Hf : exists f,
    _check_hallucination MoreSamples.listed_kpi_record = Ok f)
    by (eexists; evaluate).
  assert (Hk : has_key (py "sources") MoreSamples.listed_kpi_record = true)
    by evaluate.
  assert (Hc : contains (py "source") (py "sources") = true) by evaluate.
  destruct Hf as (f & Hf). exists f. split; [exact Hf|].
  exact (kpi_warning_suppressed_by_key MoreSamples.listed_kpi_record
           (py "sources") f Hk (or_introl Hc) Hf (py "revenue")).
Defined.

Lemma _check_required_fields_without_category_witness :
  _check_required_fields MoreSamples.empty_name_record
  = Ok {| f_errors := []; f_warnings := [] |}.
Proof.
  apply _check_required_fields_without_category. evaluate.
Defined.


Lemma verify_data_catalogue_witness :
  exists v,
    verify_data template_record = Ok v
    /\ (length (errors v) <= 15)%nat.
Proof.
  assert (Hv : exists v, verify_data template_record = Ok v)
    by (eexists; evaluate).
  destruct Hv as (v & Hv). exists v. split; [exact Hv|].
  apply (verify_data_catalogue template_record v Hv).
Defined.

Lemma validate_required_keys_witness :
  exists d',
    validate_required true sample_now (VDict gugong_record) = Ok (VDict d')
    /\ map fst d' = map fst gugong_record ++ [mark_key].
Proof.
  assert (Hr : exists d',
    validate_required true sample_now (VDict gugong_record) = Ok (VDict d'))
    by (eexists; evaluate).
  destruct Hr as (d' & Hr). exists d'. split; [exact Hr|].
  destruct (validate_required_keys true sample_now gugong_record d' Hr)
    as (Hk & _).
  exact Hk.
Defined.

Lemma validate_required_modes_agree_witness :
  validate_required true sample_now (VDict popmart_record)
  = validate_required false sample_now (VDict popmart_record).
Proof.
  apply validate_required_modes_agree.
  intros v Hv. vm_compute in Hv. injection Hv as <-. reflexivity.
Defined.

Lemma validate_required_again_witness :
  exists r1,
    validate_required true sample_now (VDict gugong_record) = Ok r1
    /\ validate_required false MoreSamples.later_now r1
       = validate_required false MoreSamples.later_now (VDict gugong_record).
Proof.
  assert (Hnew : has_key mark_key gugong_record = false) by evaluate.
  assert (Hv : verify_data gugong_record = Ok (make_verdict [] []))
    by evaluate.
  assert (Hp : passed (make_verdict [] []) = true) by reflexivity.
  assert (Hr : exists r1,
    validate_required true sample_now (VDict gugong_record) = Ok r1)
    by (eexists; evaluate).
  destruct Hr as (r1 & Hr). exists r1. split; [exact Hr|].
  apply (validate_required_again true false sample_now MoreSamples.later_now
           gugong_record _ r1 Hnew Hv Hp Hr).
Defined.

Lemma verify_data_clean_has_source_witness :
  truthy (get_none (py "source_url") gugong_record) = true
  \/ truthy (get_none (py "sources") gugong_record) = true
  \/ get_none (py "type") gugong_record = VStr (py "real_brand")
  \/ truthy (get_none (py "verified") gugong_record) = true.
Proof.
  assert (Hv : verify_data gugong_record = Ok (make_verdict [] []))
    by evaluate.
  exact (verify_data_clean_has_source gugong_record _ Hv eq_refl).
Defined.

Lemma verify_data_malformed_url_witness :
  exists v,
    verify_data MoreSamples.ftp_record = Ok v /\ v_level v = REJECTED.
Proof.
  assert (Hv : exists v, verify_data MoreSamples.ftp_record = Ok v)
    by (eexists; evaluate).
  assert (Hu : lookup_key (py "source_url") MoreSamples.ftp_record
               = Some (VStr (py "ftp://gugong.example/brand")))
    by evaluate.
  assert (Hne : py "ftp://gugong.example/brand" <> [])
    by (vm_compute; discriminate).
  assert (H1 : startswith (py "http://") (py "ftp://gugong.example/brand")
               = false) by evaluate.
  assert (H2 : startswith (py "https://") (py "ftp://gugong.example/brand")
               = false) by evaluate.
  destruct Hv as (v & Hv). exists v. split; [exact Hv|].
  apply (verify_data_malformed_url MoreSamples.ftp_record v _
           Hu Hne H1 H2 Hv).
Defined.

Lemma verify_data_template_name_witness :
  exists v,
    verify_data template_record = Ok v
    /\ In (template_error (py "文创品牌")) (errors v).
Proof.
  assert (Hv : exists v, verify_data template_record = Ok v)
    by (eexists; evaluate).
  assert (Hn : get (py "name") (get (py "title") (VStr []) template_record)
                 template_record = VStr (py "北京文创品牌")) by evaluate.
  assert (Hp : In (py "文创品牌") template_patterns) by (left; reflexivity).
  assert (Hc : contains (py "文创品牌") (py "北京文创品牌") = true)
    by evaluate.
  destruct Hv as (v & Hv). exists v. split; [exact Hv|].
  apply (verify_data_template_name template_record v _ _ Hn Hp Hc Hv).
Defined.


Lemma _check_hallucination_name_first_witness :
  exists f,
    _check_hallucination MoreSamples.empty_name_record = Ok f
    /\ f_errors f = [].
Proof.
  assert (Hf : exists f,
    _check_hallucination MoreSamples.empty_name_record = Ok f)
    by (eexists; evaluate).
  assert (Hn : lookup_key (py "name") MoreSamples.empty_name_record
               = Some (VStr [])) by evaluate.
  destruct Hf as (f & Hf). exists f. split; [exact Hf|].
  destruct (_check_hallucination_name_first MoreSamples.empty_name_record
              f _ Hn Hf) as (_ & He).
  exact (He eq_refl).
Defined.

End MiddlewareMore.

(** ** The verification reporter *)

Module ReporterProofs.
Import Reporter.

Lemma passed_of_verdict (v : Middleware.verdict) :
  passed_of (verdict_dict v) = Ok (Middleware.passed v).
Proof.
  unfold passed_of, verdict_dict.
  change (lookup_key (py "passed") ?d) with (Some (VBool (Middleware.passed v))).
  reflexivity.
Qed.

Lemma count_passed_le (reports : list entry) (n : nat) :
  count_passed reports = Ok n -> (n <= length reports)%nat.
Proof.
  revert n. induction reports as [|r rs IH]; intros n H.
  - injection H as <-. reflexivity.
  - cbn [count_passed] in H. apply bind_ok in H as (b & _ & H).
    apply bind_ok in H as (m & Hm & H). injection H as <-.
    specialize (IH m Hm). destruct b; simpl; lia.
Qed.

Section Reporter.
Variable py_str : pyval -> pystr.
Variable format_rate : nat -> nat -> pystr.


Lemma add_all_map (now : datetime)
  (batch : list (pyval * Middleware.verdict)) :
  add_all py_str now batch
  = map (fun '(data, v) =>
           {| entry_timestamp := isoformat now;
              data_summary := firstn 100 (py_str data);
              entry_result := verdict_dict v |}) batch.
Proof.
  unfold add_all.
  assert (G : forall acc,
    fold_left
      (fun reports '(data, v) =>
         add_report py_str reports now data (verdict_dict v)) batch acc
    = acc ++ map (fun '(data, v) =>
                    {| entry_timestamp := isoformat now;
                       data_summary := firstn 100 (py_str data);
                       entry_result := verdict_dict v |}) batch).
  { induction batch as [|[data v] batch IH]; intros acc; cbn [fold_left map].
    - rewrite app_nil_r. reflexivity.
    - rewrite IH. unfold add_report. rewrite <- app_assoc. reflexivity. }
  apply (G []).
Qed.

(** X26: After one [add_report] per record of a batch, each with its verdict, the
    summary counts the records, the accepted ones and the rejected ones;
    the rate of an empty batch is ["0%"]. *)
Theorem generate_summary_of_batch (now now' : datetime)
  (batch : list (pyval * Middleware.verdict)) :
  let accepted :=
    length (List.filter (fun dv => Middleware.passed (snd dv)) batch) in
  let rejected :=
    length (List.filter (fun dv => negb (Middleware.passed (snd dv))) batch)
  in
  generate_summary format_rate (add_all py_str now batch) now'
  = Ok {| total := length batch;
          passed := accepted;
          failed := rejected;
          pass_rate := match batch with
                       | [] => py "0%"
                       | _ :: _ => format_rate accepted (length batch)
                       end;
          timestamp := isoformat now' |}.
Proof.
  cbv zeta. rewrite add_all_map. unfold generate_summary.
  rewrite length_map.
  assert (Hc : count_passed
                 (map (fun '(data, v) =>
                         {| entry_timestamp := isoformat now;
                            data_summary := firstn 100 (py_str data);
                            entry_result := verdict_dict v |}) batch)
               = Ok (length (List.filter
                               (fun dv => Middleware.passed (snd dv)) batch))).
  { induction batch as [|[data v] batch IH]; [reflexivity|].
    cbn [map count_passed entry_result List.filter snd].
    rewrite passed_of_verdict, IH. cbn [bind].
    destruct (Middleware.passed v); reflexivity. }
  rewrite Hc. cbn [bind].
  assert (Hsum : (length (List.filter
                            (fun dv => Middleware.passed (snd dv)) batch)
                  + length (List.filter
                              (fun dv => negb (Middleware.passed (snd dv)))
                              batch)
                  = length batch)%nat).
  { clear Hc. induction batch as [|[data v] batch IH]; [reflexivity|].
    cbn [List.filter snd]. destruct (Middleware.passed v); cbn [negb length];
      lia. }
  f_equal. f_equal.
  - lia.
  - destruct batch; reflexivity.
Qed.

(** X27: Whatever the entries hold, a summary that is returned has
    [passed + failed = total], the number of entries; every entry then has
    a dict with a ['passed'] key as its result. *)
Theorem generate_summary_counts (reports : list entry) (now : datetime)
  (s : summary) :
  generate_summary format_rate reports now = Ok s ->
  total s = length reports
  /\ (passed s + failed s = total s)%nat
  /\ (reports = [] -> pass_rate s = py "0%")
  /\ Forall (fun r => exists d x, entry_result r = VDict d
                        /\ lookup_key (py "passed") d = Some x) reports.
Proof.
  unfold generate_summary. intros H.
  apply bind_ok in H as (n & Hn & H). injection H as <-.
  cbn [total passed failed pass_rate].
  pose proof (count_passed_le reports n Hn) as Hle.
  split; [reflexivity|]. split; [lia|]. split.
  - intros ->. reflexivity.
  - clear Hle. revert n Hn. induction reports as [|r rs IH]; intros n Hn;
      [constructor|].
    cbn [count_passed] in Hn. apply bind_ok in Hn as (b & Hb & Hn).
    apply bind_ok in Hn as (m & Hm & _). constructor; [|eauto].
    unfold passed_of in Hb. destruct (entry_result r); try discriminate.
    destruct (lookup_key (py "passed") d) eqn:E; [|discriminate]. eauto.
Qed.

End Reporter.

Lemma generate_summary_counts_witness :
  exists s,
    generate_summary (fun _ _ => py "50.0%")
      (add_all json_dumps Middleware.sample_now MoreSamples.two_verdicts)
      MoreSamples.later_now = Ok s
    /\ total s = 2%nat /\ (passed s + failed s = 2)%nat.
Proof.
  assert (Hs : exists s,
    generate_summary (fun _ _ => py "50.0%")
      (add_all json_dumps Middleware.sample_now MoreSamples.two_verdicts)
      MoreSamples.later_now = Ok s) by (eexists; evaluate).
  destruct Hs as (s & Hs). exists s. split; [exact Hs|].
  destruct (generate_summary_counts (fun _ _ => py "50.0%") _ _ s Hs)
    as (Ht & Hsum & _).
  rewrite Hsum, Ht. split; reflexivity.
Defined.

End ReporterProofs.
